(** * gotrntmessages: BitTorrent peer-wire messages, encoder and decoder

    A shallow embedding of the Go package [gotrntmessages].  The repository
    holds two revisions of the module:

    - [gotrntmessages.go], whose classifier reads the message id at offset 4
      (the buffer still carries the 4-byte length prefix) and whose decoder
      removes the prefix itself: module [Prefixed];
    - a second, unnamed revision whose classifier reads the id at offset 0
      (the caller has already consumed the prefix): module [Stripped].

    The message records, the byte-order helpers and [EncodeMessage] are the
    same in both revisions (up to the capitalisation of field names) and are
    embedded once. *)

From Stdlib Require Import ZArith List Bool Lia.
From Stdlib Require Import Strings.Byte Strings.String.
Import ListNotations.

Local Open Scope Z_scope.

(** ** Go run-time outcomes

    Indexing and slicing outside the bounds is a run-time panic in Go.  A
    computation either returns a value or panics. *)

Inductive outcome (A : Type) : Type :=
| Ret (a : A)
| Panic.

Arguments Ret {A} a.
Arguments Panic {A}.

Definition bind {A B : Type} (m : outcome A) (k : A -> outcome B) : outcome B :=
  match m with
  | Ret a => k a
  | Panic => Panic
  end.

Notation "x <- m ;; k" := (bind m (fun x => k))
  (at level 61, m at next level, right associativity).

(** ** Byte slices

    A Go slice has a length and a capacity: [elems] are the [len] visible
    bytes, [room] the bytes of the backing array between [len] and [cap].
    Re-slicing [s[lo:hi]] is checked against the capacity, [s[lo:]] and
    [s[i]] against the length. *)

Record slice : Type := mkSlice { elems : list byte; room : list byte }.

Definition len (s : slice) : nat := List.length (elems s).
Definition cap (s : slice) : nat := List.length (elems s ++ room s).

(** [s[i]] *)
Definition index (s : slice) (i : nat) : outcome byte :=
  match nth_error (elems s) i with
  | Some b => Ret b
  | None => Panic
  end.

(** [s[lo:hi]] *)
Definition reslice (s : slice) (lo hi : nat) : outcome slice :=
  if (lo <=? hi)%nat && (hi <=? cap s)%nat
  then Ret (mkSlice (skipn lo (firstn hi (elems s ++ room s)))
                    (skipn hi (elems s ++ room s)))
  else Panic.

(** [s[lo:]] *)
Definition reslice_from (s : slice) (lo : nat) : outcome slice :=
  if (lo <=? len s)%nat
  then Ret (mkSlice (skipn lo (elems s)) (room s))
  else Panic.

(** A freshly allocated slice, [len = cap]. *)
Definition sliceOf (bs : list byte) : slice := mkSlice bs [].

(** Conversions between [byte] and the unsigned integers. *)
Definition uint_of_byte (b : byte) : Z := Z.of_N (Byte.to_N b).

(** [byte(x)]: keeps the low eight bits. *)
Definition byte_of_Z (z : Z) : byte :=
  match Byte.of_N (Z.to_N (z mod 256)) with
  | Some b => b
  | None => x00
  end.

(** [string(s)] and the bytes of a string: a Go string is a sequence of
    bytes, as a Rocq [string] is. *)
Definition string_of_slice (s : slice) : string := string_of_list_byte (elems s).

(** ** Message taxonomy *)

Definition goTrntHeader : string := "BitTorrent protocol".
Definition goTrntHeaderLen : byte :=
  byte_of_Z (Z.of_nat (String.length goTrntHeader)).

Abbreviation MsgTypeChoke := 0 (only parsing).
Abbreviation MsgTypeUnchoke := 1 (only parsing).
Abbreviation MsgTypeInterested := 2 (only parsing).
Abbreviation MsgTypeNotInterested := 3 (only parsing).
Abbreviation MsgTypeHave := 4 (only parsing).
Abbreviation MsgTypeBitfield := 5 (only parsing).
Abbreviation MsgTypeRequest := 6 (only parsing).
Abbreviation MsgTypePiece := 7 (only parsing).
Abbreviation MsgTypeCancel := 8 (only parsing).
Abbreviation MsgTypePort := 9 (only parsing).
Abbreviation MsgTypeHandshake := 10 (only parsing).
Abbreviation MsgTypeKeepAlive := 11 (only parsing).
Abbreviation MsgTypeInvalid := 12 (only parsing).

Definition MsgTypeNames : list string :=
  [ "Choke"; "Unchoke"; "Interested"; "NotInterested"; "Have"; "Bitfiled";
    "Request"; "Piece"; "Cancel"; "Port"; "Handshake"; "KeepAlive";
    "Invalid" ]%string.

(** [MsgTypeNames[i]] for an unsigned [i]. *)
Definition nameAt (i : Z) : outcome string :=
  if i <? 0 then Panic
  else match nth_error MsgTypeNames (Z.to_nat i) with
       | Some s => Ret s
       | None => Panic
       end.

Record MsgDataCommon : Type := mkCommon { MsgType : Z }.

(** The dynamic types a [MsgData] interface value can hold.  A slice-valued
    field is kept by its contents.  [MsgDataOther] stands for a value of any
    other type that implements the interface (a pointer to one of the
    structs, a type declared by a client); it answers [GetMsgType] with the
    pair it carries and fails every type assertion of the encoder. *)
Inductive MsgData : Type :=
| MsgDataBase (c : MsgDataCommon)
| MsgDataChoke (c : MsgDataCommon) (IsChoking : bool)
| MsgDataInterested (c : MsgDataCommon) (IsInterested : bool)
| MsgDataHave (c : MsgDataCommon) (PieceIndex : Z)
| MsgDataBitfield (c : MsgDataCommon) (Bitfield : list byte)
| MsgDataRequestCancel (c : MsgDataCommon)
    (PieceIndex PieceBytesBegin PieceBytesLen : Z)
| MsgDataPiece (c : MsgDataCommon)
    (PieceIndex PieceBytesBegin : Z) (PieceBlock : list byte)
| MsgDataHandshake (c : MsgDataCommon) (ProtocolStrLen : Z)
    (ProtocolStr ReservedBytes InfoHash PeerId : string)
| MsgDataPort (c : MsgDataCommon) (PeerPort : Z)
| MsgDataOther (answer : Z * string).

Definition common (m : MsgData) : option MsgDataCommon :=
  match m with
  | MsgDataBase c | MsgDataChoke c _ | MsgDataInterested c _
  | MsgDataHave c _ | MsgDataBitfield c _ | MsgDataRequestCancel c _ _ _
  | MsgDataPiece c _ _ _ | MsgDataHandshake c _ _ _ _ _
  | MsgDataPort c _ => Some c
  | MsgDataOther _ => None
  end.

(** [GetMsgType], promoted from the embedded [MsgDataCommon]. *)
Definition GetMsgType (m : MsgData) : outcome (Z * string) :=
  match common m with
  | Some c => name <- nameAt (MsgType c) ;; Ret (MsgType c, name)
  | None => match m with MsgDataOther a => Ret a | _ => Panic end
  end.

(** ** Byte-order helpers *)

Definition getBytesFromUint32 (num : Z) : list byte :=
  [ byte_of_Z (Z.land (Z.shiftr num 24) 255);
    byte_of_Z (Z.land (Z.shiftr num 16) 255);
    byte_of_Z (Z.land (Z.shiftr num 8) 255);
    byte_of_Z (Z.land num 255) ].

Definition getBytesFromUint16 (num : Z) : list byte :=
  [ byte_of_Z (Z.lor (Z.shiftr num 8) 255);
    byte_of_Z (Z.lor num 255) ].

Definition getUint16FromBytes (buf : slice) : Z :=
  match elems buf with
  | b0 :: b1 :: _ =>
      Z.lor ((Z.shiftl (uint_of_byte b0) 8) mod 2 ^ 16) (uint_of_byte b1)
  | _ => 0
  end.

Definition getUint32FromBytes (buf : slice) : Z :=
  match elems buf with
  | b0 :: b1 :: b2 :: b3 :: _ =>
      Z.lor (Z.lor (Z.lor ((Z.shiftl (uint_of_byte b0) 24) mod 2 ^ 32)
                          ((Z.shiftl (uint_of_byte b1) 16) mod 2 ^ 32))
                   ((Z.shiftl (uint_of_byte b2) 8) mod 2 ^ 32))
            (uint_of_byte b3)
  | _ => 0
  end.

(** ** Classifier *)

(** The handshake test shared by both revisions:
    [len(buf) > int(goTrntHeaderLen) && buf[0] == goTrntHeaderLen &&
     string(buf[1:1+goTrntHeaderLen]) == goTrntHeader],
    evaluated left to right with Go's short-circuit [&&].  The upper bound
    [1+goTrntHeaderLen] is computed on bytes. *)
Definition isHandshake (buf : slice) : outcome bool :=
  if (Z.to_nat (uint_of_byte goTrntHeaderLen) <? len buf)%nat then
    b0 <- index buf 0 ;;
    if Byte.eqb b0 goTrntHeaderLen then
      s <- reslice buf 1
             (Z.to_nat ((1 + uint_of_byte goTrntHeaderLen) mod 256)) ;;
      Ret (String.eqb (string_of_slice s) goTrntHeader)
    else Ret false
  else Ret false.

(** The common [switch msgType] of [DecodeMessage], on the buffer as the
    revision hands it over. *)
Definition decodeSwitch (msgType : Z) (buf : slice)
  : outcome (option MsgData * bool) :=
  match msgType with
  | MsgTypeChoke | MsgTypeUnchoke =>
      Ret (Some (MsgDataChoke (mkCommon msgType) (msgType =? MsgTypeChoke)),
           true)
  | MsgTypeInterested | MsgTypeNotInterested =>
      Ret (Some (MsgDataInterested (mkCommon msgType)
                   (msgType =? MsgTypeInterested)), true)
  | MsgTypeHave =>
      s <- reslice buf 1 5 ;;
      Ret (Some (MsgDataHave (mkCommon msgType) (getUint32FromBytes s)), true)
  | MsgTypeBitfield =>
      s <- reslice_from buf 1 ;;
      Ret (Some (MsgDataBitfield (mkCommon msgType) (elems s)), true)
  | MsgTypePiece =>
      s1 <- reslice buf 1 5 ;;
      s2 <- reslice buf 5 9 ;;
      s3 <- reslice_from buf 9 ;;
      Ret (Some (MsgDataPiece (mkCommon msgType) (getUint32FromBytes s1)
                   (getUint32FromBytes s2) (elems s3)), true)
  | MsgTypeRequest | MsgTypeCancel =>
      s1 <- reslice buf 1 5 ;;
      s2 <- reslice buf 5 9 ;;
      s3 <- reslice buf 9 13 ;;
      Ret (Some (MsgDataRequestCancel (mkCommon msgType)
                   (getUint32FromBytes s1) (getUint32FromBytes s2)
                   (getUint32FromBytes s3)), true)
  | MsgTypePort =>
      s <- reslice buf 1 3 ;;
      Ret (Some (MsgDataPort (mkCommon msgType) (getUint16FromBytes s)), true)
  | MsgTypeHandshake =>
      b0 <- index buf 0 ;;
      s1 <- reslice buf 1 20 ;;
      s2 <- reslice buf 20 28 ;;
      s3 <- reslice buf 28 48 ;;
      s4 <- reslice buf 48 68 ;;
      Ret (Some (MsgDataHandshake (mkCommon msgType) (uint_of_byte b0)
                   (string_of_slice s1) (string_of_slice s2)
                   (string_of_slice s3) (string_of_slice s4)), true)
  | _ => Ret (None, false)
  end.

(** The revision of [gotrntmessages.go]: the buffer carries the length
    prefix. *)
Module Prefixed.

Definition GetMessageType (buf : slice) : outcome (Z * string) :=
  h <- isHandshake buf ;;
  if h then
    name <- nameAt MsgTypeHandshake ;; Ret (MsgTypeHandshake, name)
  else if (4 <? len buf)%nat then
    b <- index buf 4 ;;
    let msgType := uint_of_byte b in
    let msgType :=
      if msgType >? MsgTypeInvalid then MsgTypeInvalid else msgType in
    name <- nameAt msgType ;; Ret (msgType, name)
  else
    name <- nameAt MsgTypeInvalid ;; Ret (MsgTypeInvalid, name).

Definition DecodeMessage (buf : slice) : outcome (option MsgData * bool) :=
  if (len buf <=? 0)%nat then Ret (None, false)
  else
    r <- GetMessageType buf ;;
    let msgType := fst r in
    buf <- (if (msgType >=? MsgTypeChoke) && (msgType <=? MsgTypePort)
            then reslice_from buf 4 else Ret buf) ;;
    decodeSwitch msgType buf.

End Prefixed.

(** The unnamed revision: the caller has consumed the length prefix. *)
Module Stripped.

Definition GetMessageType (buf : slice) : outcome (Z * string) :=
  let bufLen := len buf in
  if (bufLen <=? 0)%nat then
    name <- nameAt MsgTypeInvalid ;; Ret (MsgTypeInvalid, name)
  else
    h <- isHandshake buf ;;
    if h then
      name <- nameAt MsgTypeHandshake ;; Ret (MsgTypeHandshake, name)
    else
      b0 <- index buf 0 ;;
      if (uint_of_byte b0 >=? MsgTypeChoke)
         && (uint_of_byte b0 <=? MsgTypePort) then
        let msgType := uint_of_byte b0 in
        let msgType :=
          if msgType >? MsgTypeInvalid then MsgTypeInvalid else msgType in
        name <- nameAt msgType ;; Ret (msgType, name)
      else
        name <- nameAt MsgTypeInvalid ;; Ret (MsgTypeInvalid, name).

Definition DecodeMessage (buf : slice) : outcome (option MsgData * bool) :=
  if (len buf <=? 0)%nat then Ret (None, false)
  else
    r <- GetMessageType buf ;;
    decodeSwitch (fst r) buf.

End Stripped.

(** ** Encoder

    [buf] is the [bytes.Buffer] being filled; [buf.Bytes()] is its contents.
    The result is the pair the Go function returns. *)
Definition EncodeMessage (msgType : Z) (msgData : option MsgData)
  : list byte * bool :=
  let buf : list byte := [] in
  match msgType with
  | MsgTypeChoke | MsgTypeUnchoke | MsgTypeInterested
  | MsgTypeNotInterested =>
      (buf ++ getBytesFromUint32 1 ++ [byte_of_Z msgType], true)
  | _ =>
    match msgData with
    | None => (buf, false)
    | Some msgData =>
      match msgType with
      | MsgTypeHave =>
          match msgData with
          | MsgDataHave _ PieceIndex =>
              (buf ++ getBytesFromUint32 5 ++ [byte_of_Z 4]
                   ++ getBytesFromUint32 PieceIndex, true)
          | _ => (buf, false)
          end
      | MsgTypeBitfield =>
          match msgData with
          | MsgDataBitfield _ Bitfield =>
              if (List.length Bitfield <=? 0)%nat then (buf, false)
              else
                let msgLen :=
                  (1 + Z.of_nat (List.length Bitfield)) mod 2 ^ 32 in
                (buf ++ getBytesFromUint32 msgLen ++ [byte_of_Z 5]
                     ++ Bitfield, true)
          | _ => (buf, false)
          end
      | MsgTypeRequest | MsgTypeCancel =>
          match msgData with
          | MsgDataRequestCancel _ PieceIndex PieceBytesBegin PieceBytesLen =>
              (buf ++ getBytesFromUint32 13
                   ++ [if msgType =? MsgTypeRequest
                       then byte_of_Z 6 else byte_of_Z 8]
                   ++ getBytesFromUint32 PieceIndex
                   ++ getBytesFromUint32 PieceBytesBegin
                   ++ getBytesFromUint32 PieceBytesLen, true)
          | _ => (buf, false)
          end
      | MsgTypePiece =>
          match msgData with
          | MsgDataPiece _ PieceIndex PieceBytesBegin PieceBlock =>
              if (List.length PieceBlock <=? 0)%nat then (buf, false)
              else
                let msgLen :=
                  (9 + Z.of_nat (List.length PieceBlock)) mod 2 ^ 32 in
                (buf ++ getBytesFromUint32 msgLen ++ [byte_of_Z 7]
                     ++ getBytesFromUint32 PieceIndex
                     ++ getBytesFromUint32 PieceBytesBegin
                     ++ PieceBlock, true)
          | _ => (buf, false)
          end
      | MsgTypePort =>
          match msgData with
          | MsgDataPort _ PeerPort =>
              (buf ++ getBytesFromUint32 3 ++ [byte_of_Z 9]
                   ++ getBytesFromUint16 PeerPort, true)
          | _ => (buf, false)
          end
      | MsgTypeHandshake =>
          match msgData with
          | MsgDataHandshake _ _ _ _ InfoHash PeerId =>
              (buf ++ [goTrntHeaderLen]
                   ++ list_byte_of_string goTrntHeader
                   ++ repeat x00 8
                   ++ list_byte_of_string InfoHash
                   ++ list_byte_of_string PeerId, true)
          | _ => (buf, false)
          end
      | MsgTypeKeepAlive =>
          (buf ++ getBytesFromUint32 0, true)
      | _ => (buf, false)
      end
    end
  end.

(** * Vocabulary of the properties *)

(** The protocol name as bytes. *)
Definition headerBytes : list byte := list_byte_of_string goTrntHeader.

(** The capacity below which the field slices of a kind cannot be taken. *)
Definition minCap (k : Z) : nat :=
  match k with
  | MsgTypeHave => 5
  | MsgTypeRequest | MsgTypeCancel => 13
  | MsgTypePiece => 9
  | MsgTypePort => 3
  | MsgTypeHandshake => 68
  | _ => 0
  end.

(** The payload record type the encoder asserts for a kind. *)
Definition recordFor (K : Z) (M : MsgData) : bool :=
  match M with
  | MsgDataChoke _ _ => (K =? MsgTypeChoke) || (K =? MsgTypeUnchoke)
  | MsgDataInterested _ _ =>
      (K =? MsgTypeInterested) || (K =? MsgTypeNotInterested)
  | MsgDataHave _ _ => K =? MsgTypeHave
  | MsgDataBitfield _ _ => K =? MsgTypeBitfield
  | MsgDataRequestCancel _ _ _ _ => (K =? MsgTypeRequest) || (K =? MsgTypeCancel)
  | MsgDataPiece _ _ _ _ => K =? MsgTypePiece
  | MsgDataPort _ _ => K =? MsgTypePort
  | MsgDataHandshake _ _ _ _ _ _ => K =? MsgTypeHandshake
  | MsgDataBase _ | MsgDataOther _ => false
  end.

(** The kind tag stored in the record agrees with [K]. *)
Definition tagAgrees (K : Z) (M : MsgData) : bool :=
  match common M with
  | Some c => MsgType c =? K
  | None => false
  end.

(** Record type and tag both agree with the kind. *)
Definition variantAgrees (K : Z) (M : MsgData) : bool :=
  recordFor K M && tagAgrees K M.




Definition withoutPrefix (K : Z) (bs : list byte) : list byte :=
  if K =? MsgTypeHandshake then bs else skipn 4 bs.



(** Case analysis on a kind: the thirteen declared values, then every
    other integer, for which a [switch] falls to its default. *)
Ltac split_kind k :=
  destruct k as [|k|k];
  [ | do 4 (try destruct k as [k|k|]) | ].

(** The encoder's check on the variable-length field of a record: the
    bit vector of a Bitfield and the block of a Piece are not empty. *)
Definition nonEmptyTail (m : MsgData) : bool :=
  match m with
  | MsgDataBitfield _ bits => negb (List.length bits =? 0)%nat
  | MsgDataPiece _ _ _ blk => negb (List.length blk =? 0)%nat
  | _ => true
  end.

(** The inputs on which the encoder reports success. *)
Definition encodable (K : Z) (M : option MsgData) : bool :=
  if (MsgTypeChoke <=? K) && (K <=? MsgTypeNotInterested) then true
  else match M with
       | None => false
       | Some m => (K =? MsgTypeKeepAlive) || (recordFor K m && nonEmptyTail m)
       end.

(** A record with every field the encoder never writes set to its zero
    value. *)
Definition forgetUnsent (m : MsgData) : MsgData :=
  match m with
  | MsgDataBase _ => MsgDataBase (mkCommon 0)
  | MsgDataChoke _ _ => MsgDataChoke (mkCommon 0) false
  | MsgDataInterested _ _ => MsgDataInterested (mkCommon 0) false
  | MsgDataHave _ i => MsgDataHave (mkCommon 0) i
  | MsgDataBitfield _ bits => MsgDataBitfield (mkCommon 0) bits
  | MsgDataRequestCancel _ i b l => MsgDataRequestCancel (mkCommon 0) i b l
  | MsgDataPiece _ i b blk => MsgDataPiece (mkCommon 0) i b blk
  | MsgDataHandshake _ _ _ _ ih pid =>
      MsgDataHandshake (mkCommon 0) 0 EmptyString EmptyString ih pid
  | MsgDataPort _ _ => MsgDataPort (mkCommon 0) 0
  | MsgDataOther _ => MsgDataOther (0, EmptyString)
  end.

(** Bytes from the id (from the first byte for a handshake) that the
    decoder's field slices of a kind reach. *)
Definition minLen (k : Z) : nat :=
  match k with
  | MsgTypeHave => 5
  | MsgTypeBitfield => 1
  | MsgTypeRequest | MsgTypeCancel => 13
  | MsgTypePiece => 9
  | MsgTypePort => 3
  | MsgTypeHandshake => 68
  | _ => 0
  end.

(** Payload sizes the encoder produces for a kind: none for the four
    payload-free kinds, 4 for Have, 12 for Request and Cancel, at least
    one for Bitfield, more than 8 for Piece. *)
Definition exactPayload (k : Z) (payload : list byte) : bool :=
  match k with
  | MsgTypeChoke | MsgTypeUnchoke | MsgTypeInterested
  | MsgTypeNotInterested => (List.length payload =? 0)%nat
  | MsgTypeHave => (List.length payload =? 4)%nat
  | MsgTypeBitfield => negb (List.length payload =? 0)%nat
  | MsgTypeRequest | MsgTypeCancel => (List.length payload =? 12)%nat
  | MsgTypePiece => (8 <? List.length payload)%nat
  | _ => false
  end.

(** The big-endian value of two and of four bytes. *)
Definition bigEndian16 (b0 b1 : byte) : Z :=
  uint_of_byte b0 * 2 ^ 8 + uint_of_byte b1.

Definition bigEndian32 (b0 b1 b2 b3 : byte) : Z :=
  uint_of_byte b0 * 2 ^ 24 + uint_of_byte b1 * 2 ^ 16
  + uint_of_byte b2 * 2 ^ 8 + uint_of_byte b3.

(** * Properties *)

(** ** Bytes and unsigned integers *)

Lemma uint_of_byte_range (b : byte) : 0 <= uint_of_byte b < 256.
Proof.
  unfold uint_of_byte. pose proof (Byte.to_N_bounded b). lia.
Qed.

Lemma uint_of_byte_of_Z (z : Z) : uint_of_byte (byte_of_Z z) = z mod 256.
Proof.
  unfold uint_of_byte, byte_of_Z.
  assert (Hr : 0 <= z mod 256 < 256) by (apply Z.mod_pos_bound; lia).
  destruct (Byte.of_N (Z.to_N (z mod 256))) as [b|] eqn:E.
  - apply Byte.to_of_N in E. rewrite E. lia.
  - apply Byte.of_N_None_iff in E. lia.
Qed.

Lemma byte_of_Z_of_byte (b : byte) : byte_of_Z (uint_of_byte b) = b.
Proof.
  unfold byte_of_Z. rewrite Z.mod_small by apply uint_of_byte_range.
  unfold uint_of_byte. rewrite N2Z.id, Byte.of_to_N. reflexivity.
Qed.

Lemma land_255_range (x : Z) : 0 <= Z.land x 255 < 256.
Proof.
  change 255 with (Z.ones 8). rewrite Z.land_ones by lia.
  apply Z.mod_pos_bound. lia.
Qed.

Lemma uint_byte_land (x : Z) :
  uint_of_byte (byte_of_Z (Z.land x 255)) = Z.land x 255.
Proof.
  rewrite uint_of_byte_of_Z. apply Z.mod_small, land_255_range.
Qed.

Lemma testbit_255 (i : Z) : Z.testbit 255 i = (0 <=? i) && (i <? 8).
Proof. change 255 with (Z.ones 8). apply Z.testbit_ones. lia. Qed.

(** Bit [i] of the byte taken at offset [k] of [n], put back at offset [k]. *)
Lemma testbit_field (n k i : Z) :
  0 <= k -> 0 <= i ->
  Z.testbit (Z.shiftl (Z.land (Z.shiftr n k) 255) k) i
  = (k <=? i) && (i <? k + 8) && Z.testbit n i.
Proof.
  intros Hk Hi. rewrite Z.shiftl_spec by assumption.
  rewrite Z.land_spec, testbit_255.
  destruct (Z.leb_spec k i).
  - rewrite Z.shiftr_spec by lia. replace (i - k + k) with i by lia.
    destruct (Z.leb_spec 0 (i - k)); [|lia].
    destruct (Z.ltb_spec (i - k) 8); destruct (Z.ltb_spec i (k + 8));
      try lia; simpl; auto using andb_true_r, andb_false_r.
  - destruct (Z.leb_spec 0 (i - k)); [lia|]. simpl.
    apply andb_false_r.
Qed.

Lemma shiftl_field_small (n k : Z) :
  0 <= k <= 24 ->
  (Z.shiftl (Z.land (Z.shiftr n k) 255) k) mod 2 ^ 32
  = Z.shiftl (Z.land (Z.shiftr n k) 255) k.
Proof.
  intros Hk. apply Z.mod_small.
  pose proof (land_255_range (Z.shiftr n k)) as Hr.
  rewrite Z.shiftl_mul_pow2 by lia.
  assert (Hp : 0 < 2 ^ k) by (apply Z.pow_pos_nonneg; lia).
  assert (Hq : 2 ^ k <= 2 ^ 24) by (apply Z.pow_le_mono_r; lia).
  assert (Hm : Z.land (Z.shiftr n k) 255 * 2 ^ k <= 255 * 2 ^ k)
    by (apply Z.mul_le_mono_nonneg_r; lia).
  assert (Hz : 0 <= Z.land (Z.shiftr n k) 255 * 2 ^ k)
    by (apply Z.mul_nonneg_nonneg; lia).
  change (2 ^ 24) with 16777216 in Hq. change (2 ^ 32) with 4294967296.
  lia.
Qed.

(** The 32-bit helpers are inverse to each other on the range of [uint32]. *)
Lemma getUint32_getBytes (n : Z) (s : slice) :
  0 <= n < 2 ^ 32 ->
  elems s = getBytesFromUint32 n ->
  getUint32FromBytes s = n.
Proof.
  intros Hn He. unfold getUint32FromBytes. rewrite He.
  unfold getBytesFromUint32. rewrite !uint_byte_land.
  rewrite !shiftl_field_small by lia.
  apply Z.bits_inj'. intros i Hi.
  rewrite !Z.lor_spec, !testbit_field by lia.
  rewrite Z.land_spec, testbit_255.
  assert (Hhigh : 32 <= i -> Z.testbit n i = false).
  { intros H. rewrite <- (Z.mod_small n (2 ^ 32)) by lia.
    apply Z.mod_pow2_bits_high. lia. }
  destruct (Z.leb_spec 24 i); destruct (Z.ltb_spec i (24 + 8));
    destruct (Z.leb_spec 16 i); destruct (Z.ltb_spec i (16 + 8));
    destruct (Z.leb_spec 8 i); destruct (Z.ltb_spec i (8 + 8));
    destruct (Z.leb_spec 0 i); destruct (Z.ltb_spec i 8);
    try lia; simpl;
    rewrite ?andb_false_r, ?orb_false_r, ?andb_true_r; auto.
  rewrite Hhigh by lia. reflexivity.
Qed.

(** The 16-bit writer sets every bit of both bytes, whatever the port. *)
Lemma getBytesFromUint16_all_ones (num : Z) :
  getBytesFromUint16 num = [xff; xff].
Proof.
  assert (H : forall x, byte_of_Z (Z.lor x 255) = xff).
  { intros x. rewrite <- (byte_of_Z_of_byte xff).
    unfold byte_of_Z at 1.
    replace (Z.lor x 255 mod 256) with 255; [reflexivity|].
    change 256 with (2 ^ 8). rewrite <- Z.land_ones by lia.
    apply Z.bits_inj'. intros i Hi.
    rewrite Z.land_spec, Z.lor_spec. change (Z.ones 8) with 255.
    rewrite testbit_255.
    destruct (Z.leb_spec 0 i); destruct (Z.ltb_spec i 8); try lia; simpl;
      rewrite ?orb_true_r, ?andb_false_r; reflexivity. }
  unfold getBytesFromUint16. rewrite !H. reflexivity.
Qed.

Lemma length_list_byte_of_string (s : string) :
  List.length (list_byte_of_string s) = String.length s.
Proof.
  induction s as [|a s IH]; [reflexivity|].
  change (list_byte_of_string (String a s))
    with (Ascii.byte_of_ascii a :: list_byte_of_string s).
  simpl. now rewrite IH.
Qed.

(** ** Slices *)

Lemma reslice_ok (s : slice) (lo hi : nat) :
  (lo <= hi)%nat -> (hi <= cap s)%nat ->
  reslice s lo hi
  = Ret (mkSlice (skipn lo (firstn hi (elems s ++ room s)))
                 (skipn hi (elems s ++ room s))).
Proof.
  intros H1 H2. unfold reslice.
  apply Nat.leb_le in H1. apply Nat.leb_le in H2.
  now rewrite H1, H2.
Qed.

Lemma reslice_short (s : slice) (lo hi : nat) :
  (cap s < hi)%nat -> reslice s lo hi = Panic.
Proof.
  intros H. unfold reslice. apply Nat.leb_gt in H. rewrite H.
  now rewrite andb_false_r.
Qed.

Lemma len_le_cap (s : slice) : (len s <= cap s)%nat.
Proof. unfold len, cap. rewrite length_app. lia. Qed.

Lemma index_ok (s : slice) (i : nat) :
  (i < len s)%nat -> exists b, index s i = Ret b /\ nth_error (elems s) i = Some b.
Proof.
  intros H. unfold index.
  destruct (nth_error (elems s) i) as [b|] eqn:E; [eauto|].
  apply nth_error_None in E. unfold len in H. lia.
Qed.

(** ** The handshake test *)

Lemma isHandshake_total (buf : slice) :
  isHandshake buf = Ret true \/ isHandshake buf = Ret false.
Proof.
  unfold isHandshake.
  destruct (Nat.ltb_spec (Z.to_nat (uint_of_byte goTrntHeaderLen)) (len buf))
    as [H|H]; [|now right].
  change (Z.to_nat (uint_of_byte goTrntHeaderLen)) with 19%nat in H.
  destruct (index_ok buf 0) as (b & -> & _); [lia|]. simpl.
  destruct (Byte.eqb b goTrntHeaderLen); [|now right].
  rewrite reslice_ok.
  - simpl. destruct (String.eqb _ _); auto.
  - vm_compute. lia.
  - pose proof (len_le_cap buf).
    change (Z.to_nat ((1 + uint_of_byte goTrntHeaderLen) mod 256))
      with 20%nat. lia.
Qed.

(** A buffer passes the test exactly when it starts with the byte 19
    followed by the protocol name. *)
Lemma isHandshake_true_inv (buf : slice) :
  isHandshake buf = Ret true ->
  exists rest, elems buf = x13 :: headerBytes ++ rest.
Proof.
  unfold isHandshake.
  destruct (Nat.ltb_spec (Z.to_nat (uint_of_byte goTrntHeaderLen)) (len buf))
    as [H|H]; [|discriminate].
  change (Z.to_nat (uint_of_byte goTrntHeaderLen)) with 19%nat in H.
  destruct (index_ok buf 0) as (b & -> & Hb); [lia|]. cbn [bind].
  destruct (Byte.eqb b goTrntHeaderLen) eqn:Eb; [|discriminate].
  apply Byte.byte_dec_bl in Eb. subst b.
  change (Z.to_nat ((1 + uint_of_byte goTrntHeaderLen) mod 256)) with 20%nat.
  rewrite reslice_ok; [|lia|pose proof (len_le_cap buf); lia].
  cbn [bind]. unfold string_of_slice. cbn [elems]. intros E0.
  assert (E : skipn 1 (firstn 20 (elems buf ++ room buf)) = headerBytes).
  { rewrite <- (list_byte_of_string_of_list_byte (skipn 1 _)).
    unfold headerBytes. f_equal. apply String.eqb_eq. congruence. }
  clear E0.
  unfold len in H. rewrite firstn_app in E.
  replace (20 - List.length (elems buf))%nat with 0%nat in E by lia.
  change (firstn 0 (room buf)) with (@nil byte) in E.
  rewrite app_nil_r in E.
  exists (skipn 20 (elems buf)).
  rewrite <- (firstn_skipn 20 (elems buf)) at 1.
  destruct (elems buf) as [|e es] eqn:Ee; [discriminate|].
  simpl in Hb. injection Hb as ->.
  change (firstn 20 (goTrntHeaderLen :: es))
    with (goTrntHeaderLen :: firstn 19 es).
  change (skipn 1 (firstn 20 (goTrntHeaderLen :: es)))
    with (firstn 19 es) in E.
  rewrite E. reflexivity.
Qed.

Lemma isHandshake_true_intro (rest r : list byte) :
  isHandshake (mkSlice (x13 :: headerBytes ++ rest) r) = Ret true.
Proof. reflexivity. Qed.

(** A buffer whose first byte is not 19 fails the test. *)
Lemma isHandshake_first (b : byte) (rest r : list byte) :
  b <> x13 -> isHandshake (mkSlice (b :: rest) r) = Ret false.
Proof.
  intros Hb. destruct (isHandshake_total (mkSlice (b :: rest) r)) as [H|H];
    [|assumption].
  apply isHandshake_true_inv in H. destruct H as (t & Ht).
  simpl in Ht. congruence.
Qed.

(** A buffer whose byte at offset 4 is not the letter T fails the test. *)
Lemma isHandshake_fifth (b0 b1 b2 b3 id : byte) (rest r : list byte) :
  id <> x54 ->
  isHandshake (mkSlice (b0 :: b1 :: b2 :: b3 :: id :: rest) r) = Ret false.
Proof.
  intros Hb.
  destruct (isHandshake_total (mkSlice (b0 :: b1 :: b2 :: b3 :: id :: rest) r))
    as [H|H]; [|assumption].
  apply isHandshake_true_inv in H. destruct H as (t & Ht).
  simpl in Ht. congruence.
Qed.

(** ** Classification *)

Lemma bind_name_inv (x k : Z) (name : string) :
  (n <- nameAt x ;; Ret (x, n)) = Ret (k, name) ->
  k = x /\ nameAt k = Ret name.
Proof.
  destruct (nameAt x) as [n|] eqn:E; simpl; [|discriminate].
  intros H. injection H as <- <-. auto.
Qed.

Lemma Prefixed_GetMessageType_name (buf : slice) (k : Z) (name : string) :
  Prefixed.GetMessageType buf = Ret (k, name) -> nameAt k = Ret name.
Proof.
  unfold Prefixed.GetMessageType.
  destruct (isHandshake_total buf) as [-> | ->]; cbn [bind].
  - intros H. now apply bind_name_inv in H.
  - destruct (4 <? len buf)%nat.
    + destruct (index buf 4) as [b|]; cbn [bind]; [|discriminate].
      intros H. now apply bind_name_inv in H.
    + intros H. now apply bind_name_inv in H.
Qed.

Lemma Stripped_GetMessageType_name (buf : slice) (k : Z) (name : string) :
  Stripped.GetMessageType buf = Ret (k, name) -> nameAt k = Ret name.
Proof.
  unfold Stripped.GetMessageType. cbv zeta.
  destruct (len buf <=? 0)%nat.
  - intros H. now apply bind_name_inv in H.
  - destruct (isHandshake_total buf) as [-> | ->]; cbn [bind].
    + intros H. now apply bind_name_inv in H.
    + destruct (index buf 0) as [b|]; cbn [bind]; [|discriminate].
      destruct (_ && _); intros H; now apply bind_name_inv in H.
Qed.

(** A successful decode tags the record with the kind it dispatched on. *)
Lemma decodeSwitch_tag (k : Z) (buf : slice) (m : MsgData) :
  decodeSwitch k buf = Ret (Some m, true) -> common m = Some (mkCommon k).
Proof.
  unfold decodeSwitch. split_kind k;
    repeat match goal with
           | |- context [bind ?o _] => destruct o; cbn [bind]
           end;
    intros H; try discriminate; injection H as <-; reflexivity.
Qed.

(** Offset-0 classification (second revision): an id byte above 9 on a
    buffer that is not a handshake is Invalid. *)
Lemma Stripped_GetMessageType_above_Port (buf : slice) (b : byte) :
  nth_error (elems buf) 0 = Some b ->
  uint_of_byte b > MsgTypePort ->
  isHandshake buf = Ret false ->
  Stripped.GetMessageType buf = Ret (MsgTypeInvalid, "Invalid"%string).
Proof.
  intros Hb Hgt Hh. unfold Stripped.GetMessageType. cbv zeta.
  destruct buf as [[|e es] r]; [discriminate|].
  simpl in Hb. injection Hb as ->.
  change (len {| elems := b :: es; room := r |} <=? 0)%nat with false.
  cbv iota. rewrite Hh. cbn [bind index elems nth_error].
  destruct (Z.leb_spec (uint_of_byte b) MsgTypePort); [lia|].
  rewrite andb_false_r. reflexivity.
Qed.

(** Offset-4 classification ([gotrntmessages.go]): only id bytes above
    Invalid's ordinal are clamped. *)
Lemma Prefixed_GetMessageType_id (buf : slice) (b : byte) :
  nth_error (elems buf) 4 = Some b ->
  isHandshake buf = Ret false ->
  Prefixed.GetMessageType buf
  = (let k := if uint_of_byte b >? MsgTypeInvalid
              then MsgTypeInvalid else uint_of_byte b in
     name <- nameAt k ;; Ret (k, name)).
Proof.
  intros Hb Hh. unfold Prefixed.GetMessageType. rewrite Hh. cbn [bind].
  assert (Hl : (4 <? len buf)%nat = true).
  { apply Nat.ltb_lt. unfold len.
    apply nth_error_Some. congruence. }
  rewrite Hl. unfold index. rewrite Hb. reflexivity.
Qed.

(** ** Truncated buffers *)

Lemma decodeSwitch_short (k : Z) (buf : slice) :
  (cap buf < minCap k)%nat -> decodeSwitch k buf = Panic.
Proof.
  unfold decodeSwitch. split_kind k; cbn [minCap]; intros H; try lia;
    repeat match goal with
           | |- context [reslice buf ?lo ?hi] =>
               first [ rewrite (reslice_short buf lo hi) by lia
                     | destruct (reslice buf lo hi) ];
               cbn [bind]
           | |- context [bind (index buf 0) _] =>
               destruct (index buf 0); cbn [bind]
           end;
    reflexivity.
Qed.

Lemma nameAt_ok (k : Z) :
  0 <= k <= MsgTypeInvalid -> exists name, nameAt k = Ret name.
Proof.
  intros Hk. unfold nameAt.
  destruct (Z.ltb_spec k 0); [lia|].
  destruct (nth_error MsgTypeNames (Z.to_nat k)) as [s|] eqn:E; [eauto|].
  apply nth_error_None in E. simpl in E. lia.
Qed.

Lemma Stripped_decode_short (buf : slice) (b : byte) :
  nth_error (elems buf) 0 = Some b ->
  uint_of_byte b <= MsgTypePort ->
  (cap buf < minCap (uint_of_byte b))%nat ->
  Stripped.DecodeMessage buf = Panic.
Proof.
  intros Hb Hk Hc. pose proof (uint_of_byte_range b) as Hr.
  destruct buf as [[|e es] r]; [discriminate|].
  simpl in Hb. injection Hb as ->.
  unfold Stripped.DecodeMessage, Stripped.GetMessageType. cbv zeta.
  change (len {| elems := b :: es; room := r |} <=? 0)%nat with false.
  cbv iota. rewrite isHandshake_first.
  2:{ intros ->. vm_compute in Hk. congruence. }
  cbn [bind index elems nth_error].
  destruct (Z.geb_spec (uint_of_byte b) 0); [|lia].
  destruct (Z.leb_spec (uint_of_byte b) 9); [|lia].
  cbn [andb]. destruct (Z.gtb_spec (uint_of_byte b) 12); [lia|].
  destruct (nameAt_ok (uint_of_byte b)) as (n & ->); [lia|].
  cbn [bind fst]. now apply decodeSwitch_short.
Qed.

Lemma Prefixed_decode_short (buf : slice) (b : byte) :
  nth_error (elems buf) 4 = Some b ->
  uint_of_byte b <= MsgTypePort ->
  (cap buf < 4 + minCap (uint_of_byte b))%nat ->
  Prefixed.DecodeMessage buf = Panic.
Proof.
  intros Hb Hk Hc. pose proof (uint_of_byte_range b) as Hr.
  destruct buf as [[|b0 [|b1 [|b2 [|b3 [|e es]]]]] r]; try discriminate.
  simpl in Hb. injection Hb as ->.
  unfold Prefixed.DecodeMessage.
  change (len {| elems := b0 :: b1 :: b2 :: b3 :: b :: es; room := r |}
          <=? 0)%nat with false.
  cbv iota. rewrite (Prefixed_GetMessageType_id _ b); [|reflexivity|].
  2:{ apply isHandshake_fifth. intros ->. vm_compute in Hk. congruence. }
  cbv zeta. destruct (Z.gtb_spec (uint_of_byte b) 12); [lia|].
  destruct (nameAt_ok (uint_of_byte b)) as (n & ->); [lia|].
  cbn [bind fst].
  destruct (Z.geb_spec (uint_of_byte b) 0); [|lia].
  destruct (Z.leb_spec (uint_of_byte b) 9); [|lia].
  cbn [andb]. unfold reslice_from.
  change (4 <=? len {| elems := b0 :: b1 :: b2 :: b3 :: b :: es; room := r |})%nat
    with true.
  cbv iota. cbn [bind elems room skipn].
  apply decodeSwitch_short. unfold cap in *. cbn [elems room] in *.
  simpl in Hc. change ((b :: es) ++ r) with (b :: es ++ r).
  cbn [List.length]. lia.
Qed.

(** ** Encoder: kinds and payload records *)

(** C7, as stated, fails: the encoder never reads the tag of the record,
    so a Have record tagged Piece is encoded under kind Have. *)
Lemma encode_mismatched_tag_succeeds :
  variantAgrees MsgTypeHave (MsgDataHave (mkCommon MsgTypePiece) 1) = false
  /\ EncodeMessage MsgTypeHave (Some (MsgDataHave (mkCommon MsgTypePiece) 1))
     = ([x00; x00; x00; x05; x04; x00; x00; x00; x01], true).
Proof. split; reflexivity. Qed.

(** The four payload-free kinds do not look at the payload at all. *)
Lemma encode_choke_with_have_record :
  variantAgrees MsgTypeChoke (MsgDataHave (mkCommon MsgTypeHave) 1) = false
  /\ EncodeMessage MsgTypeChoke (Some (MsgDataHave (mkCommon MsgTypeHave) 1))
     = ([x00; x00; x00; x01; x00], true).
Proof. split; reflexivity. Qed.

(** C7, amended: for the kinds Have, Bitfield, Request, Piece, Cancel, Port
    and Handshake, a non-nil payload whose record type is not the one of
    the kind makes [EncodeMessage] fail with an empty buffer. *)
Theorem encode_wrong_record_fails (K : Z) (M : MsgData) :
  MsgTypeHave <= K <= MsgTypeHandshake ->
  recordFor K M = false ->
  EncodeMessage K (Some M) = ([], false).
Proof.
  intros HK HM. unfold EncodeMessage.
  split_kind K; try lia; destruct M; cbn in HM; try discriminate;
    reflexivity.
Qed.

Lemma encode_wrong_record_fails_witness :
  EncodeMessage MsgTypePiece (Some (MsgDataHave (mkCommon MsgTypePiece) 1))
  = ([], false).
Proof.
  apply encode_wrong_record_fails; [lia | reflexivity].
Defined.

(** C8: whenever [EncodeMessage] reports failure, the bytes it returns are
    empty. *)
Theorem encode_failure_returns_no_bytes
  (K : Z) (M : option MsgData) (bs : list byte) :
  EncodeMessage K M = (bs, false) -> bs = [].
Proof.
  unfold EncodeMessage. intros H.
  split_kind K; destruct M as [[]|]; cbn in H;
    repeat match type of H with
           | context [if ?c then _ else _] => destruct c
           end;
    congruence.
Qed.

Lemma encode_failure_returns_no_bytes_witness :
  fst (EncodeMessage MsgTypeBitfield
         (Some (MsgDataBitfield (mkCommon MsgTypeBitfield) []))) = [].
Proof.
  apply (encode_failure_returns_no_bytes MsgTypeBitfield
           (Some (MsgDataBitfield (mkCommon MsgTypeBitfield) []))).
  reflexivity.
Defined.

(** C10: Choke, Unchoke, Interested and NotInterested are encoded as
    [00 00 00 01 id] for every payload argument, nil included. *)
Theorem encode_payload_free_kinds (M : option MsgData) :
  EncodeMessage MsgTypeChoke M = ([x00; x00; x00; x01; x00], true)
  /\ EncodeMessage MsgTypeUnchoke M = ([x00; x00; x00; x01; x01], true)
  /\ EncodeMessage MsgTypeInterested M = ([x00; x00; x00; x01; x02], true)
  /\ EncodeMessage MsgTypeNotInterested M
     = ([x00; x00; x00; x01; x03], true).
Proof. repeat split. Qed.

(** ** Decoder and classifier agree *)

(** C9: the kind and name reported by a decoded message are those the
    classifier returns for the same buffer, in both revisions. *)
Theorem decoded_kind_is_classified_kind (buf : slice) (m : MsgData) :
  (Prefixed.DecodeMessage buf = Ret (Some m, true) ->
   GetMsgType m = Prefixed.GetMessageType buf)
  /\ (Stripped.DecodeMessage buf = Ret (Some m, true) ->
      GetMsgType m = Stripped.GetMessageType buf).
Proof.
  split.
  - unfold Prefixed.DecodeMessage.
    destruct (len buf <=? 0)%nat; [discriminate|].
    destruct (Prefixed.GetMessageType buf) as [[k name]|] eqn:E;
      cbn [bind fst]; [|discriminate].
    destruct (if (k >=? 0) && (k <=? 9) then reslice_from buf 4 else Ret buf);
      cbn [bind]; [|discriminate].
    intros H. apply decodeSwitch_tag in H.
    unfold GetMsgType. rewrite H. cbn [MsgType].
    now rewrite (Prefixed_GetMessageType_name _ _ _ E).
  - unfold Stripped.DecodeMessage.
    destruct (len buf <=? 0)%nat; [discriminate|].
    destruct (Stripped.GetMessageType buf) as [[k name]|] eqn:E;
      cbn [bind fst]; [|discriminate].
    intros H. apply decodeSwitch_tag in H.
    unfold GetMsgType. rewrite H. cbn [MsgType].
    now rewrite (Stripped_GetMessageType_name _ _ _ E).
Qed.

Lemma decoded_kind_is_classified_kind_witness :
  GetMsgType (MsgDataHave (mkCommon MsgTypeHave) 42)
  = Prefixed.GetMessageType
      (sliceOf [x00; x00; x00; x05; x04; x00; x00; x00; x2a]).
Proof.
  apply (proj1 (decoded_kind_is_classified_kind
                  (sliceOf [x00; x00; x00; x05; x04; x00; x00; x00; x2a])
                  (MsgDataHave (mkCommon MsgTypeHave) 42))).
  reflexivity.
Defined.

(** ** Handshake classification *)

(** C6: a buffer longer than 19 bytes whose byte 0 is 19 and whose bytes 1
    to 19 are the protocol name is classified as Handshake by both
    revisions, whatever follows. *)
Theorem handshake_pattern_is_Handshake (buf : slice) :
  (19 < len buf)%nat ->
  nth_error (elems buf) 0 = Some x13 ->
  firstn 19 (skipn 1 (elems buf)) = list_byte_of_string goTrntHeader ->
  Prefixed.GetMessageType buf = Ret (MsgTypeHandshake, "Handshake"%string)
  /\ Stripped.GetMessageType buf = Ret (MsgTypeHandshake, "Handshake"%string).
Proof.
  intros _ H0 Hn. destruct buf as [[|e es] r]; [discriminate|].
  simpl in H0. injection H0 as ->. cbn [elems skipn] in Hn.
  rewrite <- (firstn_skipn 19 es), Hn.
  fold headerBytes.
  unfold Prefixed.GetMessageType, Stripped.GetMessageType.
  rewrite isHandshake_true_intro. split; reflexivity.
Qed.

Lemma handshake_pattern_is_Handshake_witness :
  Prefixed.GetMessageType (sliceOf (x13 :: headerBytes ++ [x00]))
  = Ret (MsgTypeHandshake, "Handshake"%string)
  /\ Stripped.GetMessageType (sliceOf (x13 :: headerBytes ++ [x00]))
     = Ret (MsgTypeHandshake, "Handshake"%string).
Proof.
  apply handshake_pattern_is_Handshake;
    [vm_compute; lia | reflexivity | reflexivity].
Defined.

(** ** Id bytes above Port *)

(** C5 on [gotrntmessages.go]: the id bytes 10 and 11 at offset 4 are
    returned as the kinds Handshake and KeepAlive, not Invalid; decoding
    the first buffer then runs the handshake branch and faults.  The
    bytes 12 and 13 are Invalid. *)
Theorem Prefixed_id_10_11_not_Invalid :
  Prefixed.GetMessageType (sliceOf [x00; x00; x00; x01; x0a])
  = Ret (MsgTypeHandshake, "Handshake"%string)
  /\ Prefixed.GetMessageType (sliceOf [x00; x00; x00; x01; x0b])
     = Ret (MsgTypeKeepAlive, "KeepAlive"%string)
  /\ Prefixed.GetMessageType (sliceOf [x00; x00; x00; x01; x0c])
     = Ret (MsgTypeInvalid, "Invalid"%string)
  /\ Prefixed.GetMessageType (sliceOf [x00; x00; x00; x01; x0d])
     = Ret (MsgTypeInvalid, "Invalid"%string)
  /\ Prefixed.DecodeMessage (sliceOf [x00; x00; x00; x01; x0a]) = Panic.
Proof. repeat split. Qed.

(** On [gotrntmessages.go] the clamp catches every id byte above 11. *)
Lemma Prefixed_GetMessageType_above_KeepAlive (buf : slice) (b : byte) :
  nth_error (elems buf) 4 = Some b ->
  uint_of_byte b > MsgTypeKeepAlive ->
  isHandshake buf = Ret false ->
  Prefixed.GetMessageType buf = Ret (MsgTypeInvalid, "Invalid"%string).
Proof.
  intros Hb Hgt Hh. rewrite (Prefixed_GetMessageType_id _ b Hb Hh).
  cbv zeta. destruct (Z.gtb_spec (uint_of_byte b) 12); [reflexivity|].
  replace (uint_of_byte b) with 12 by lia. reflexivity.
Qed.

(** ** Concrete scenarios *)

(** C4 on the code: Port 6881 is encoded with both port bytes FF, and the
    bytes decode to port 65535 in both revisions. *)
Theorem encode_Port_6881_bytes :
  EncodeMessage MsgTypePort (Some (MsgDataPort (mkCommon MsgTypePort) 6881))
  = ([x00; x00; x00; x03; x09; xff; xff], true)
  /\ Prefixed.DecodeMessage (sliceOf [x00; x00; x00; x03; x09; xff; xff])
     = Ret (Some (MsgDataPort (mkCommon MsgTypePort) 65535), true)
  /\ Stripped.DecodeMessage (sliceOf [x09; xff; xff])
     = Ret (Some (MsgDataPort (mkCommon MsgTypePort) 65535), true).
Proof. repeat split. Qed.

(** The same for every port. *)
Lemma encode_Port_any (c : MsgDataCommon) (port : Z) :
  EncodeMessage MsgTypePort (Some (MsgDataPort c port))
  = ([x00; x00; x00; x03; x09; xff; xff], true).
Proof.
  unfold EncodeMessage. cbv iota beta.
  rewrite getBytesFromUint16_all_ones. reflexivity.
Qed.

(** C3, as stated, fails on [gotrntmessages.go]: its decoder reads the id
    at offset 4 of the five bytes [04 00 00 00 2A], finds 42, and reports
    no message. *)
Lemma Prefixed_decode_stripped_Have :
  ~ (EncodeMessage MsgTypeHave (Some (MsgDataHave (mkCommon MsgTypeHave) 42))
     = ([x00; x00; x00; x05; x04; x00; x00; x00; x2a], true)
     /\ Prefixed.DecodeMessage (sliceOf [x04; x00; x00; x00; x2a])
        = Ret (Some (MsgDataHave (mkCommon MsgTypeHave) 42), true)).
Proof. intros [_ H]. vm_compute in H. discriminate. Qed.

Lemma Prefixed_decode_stripped_Have_any_capacity (r : list byte) :
  Prefixed.DecodeMessage (mkSlice [x04; x00; x00; x00; x2a] r)
  = Ret (None, false).
Proof. reflexivity. Qed.

(** C3, amended: Have 42 is encoded as [00 00 00 05 04 00 00 00 2A];
    [gotrntmessages.go] decodes these nine bytes (it removes the prefix
    itself), the second revision decodes the five bytes after the prefix,
    and both return Have with piece index 42. *)
Theorem Have_42_scenario (r : list byte) :
  EncodeMessage MsgTypeHave (Some (MsgDataHave (mkCommon MsgTypeHave) 42))
  = ([x00; x00; x00; x05; x04; x00; x00; x00; x2a], true)
  /\ Prefixed.DecodeMessage
       (mkSlice [x00; x00; x00; x05; x04; x00; x00; x00; x2a] r)
     = Ret (Some (MsgDataHave (mkCommon MsgTypeHave) 42), true)
  /\ Stripped.DecodeMessage (mkSlice [x04; x00; x00; x00; x2a] r)
     = Ret (Some (MsgDataHave (mkCommon MsgTypeHave) 42), true).
Proof. repeat split. Qed.

(** C2 on the code: buffers that stop right after the id byte (or, for a
    handshake, after the protocol name) make the decoder fault when the
    backing array is no longer than the buffer, in both revisions; with
    spare capacity the decoder reads past the length and reports
    success. *)
Theorem decode_truncated_buffers :
  Prefixed.DecodeMessage (sliceOf [x00; x00; x00; x01; x04]) = Panic
  /\ Prefixed.DecodeMessage (sliceOf [x00; x00; x00; x01; x06]) = Panic
  /\ Prefixed.DecodeMessage (sliceOf [x00; x00; x00; x01; x07]) = Panic
  /\ Prefixed.DecodeMessage (sliceOf [x00; x00; x00; x01; x08]) = Panic
  /\ Prefixed.DecodeMessage (sliceOf [x00; x00; x00; x01; x09]) = Panic
  /\ Prefixed.DecodeMessage (sliceOf (x13 :: headerBytes)) = Panic
  /\ Stripped.DecodeMessage (sliceOf [x04]) = Panic
  /\ Stripped.DecodeMessage (sliceOf [x06]) = Panic
  /\ Stripped.DecodeMessage (sliceOf [x07]) = Panic
  /\ Stripped.DecodeMessage (sliceOf [x08]) = Panic
  /\ Stripped.DecodeMessage (sliceOf [x09]) = Panic
  /\ Stripped.DecodeMessage (sliceOf (x13 :: headerBytes)) = Panic
  /\ Stripped.DecodeMessage (mkSlice [x04] [x00; x00; x00; x2a])
     = Ret (Some (MsgDataHave (mkCommon MsgTypeHave) 42), true)
  /\ Prefixed.DecodeMessage
       (mkSlice [x00; x00; x00; x01; x04] [x00; x00; x00; x2a])
     = Ret (Some (MsgDataHave (mkCommon MsgTypeHave) 42), true).
Proof. repeat split. Qed.

(** ** Round trip *)

(** Taking the middle of a buffer laid out as [pre ++ mid ++ post]. *)
Lemma firstn_length_app (l l' : list byte) :
  firstn (List.length l) (l ++ l') = l.
Proof.
  rewrite firstn_app, firstn_all, Nat.sub_diag. cbn [firstn].
  apply app_nil_r.
Qed.

Lemma skipn_length_app (l l' : list byte) :
  skipn (List.length l) (l ++ l') = l'.
Proof.
  rewrite skipn_app, skipn_all, Nat.sub_diag. reflexivity.
Qed.

Lemma reslice_mid (pre mid post r : list byte) (lo hi : nat) :
  List.length pre = lo -> List.length (pre ++ mid) = hi ->
  reslice (mkSlice (pre ++ mid ++ post) r) lo hi
  = Ret (mkSlice mid (post ++ r)).
Proof.
  intros <- <-.
  assert (E : (pre ++ mid ++ post) ++ r = (pre ++ mid) ++ post ++ r)
    by now rewrite <- !app_assoc.
  rewrite reslice_ok.
  - cbn [elems room]. rewrite E, firstn_length_app, !skipn_length_app.
    reflexivity.
  - rewrite length_app. lia.
  - unfold cap. cbn [elems room]. rewrite E, !length_app. lia.
Qed.

Lemma reslice_from_tail (pre post r : list byte) (lo : nat) :
  List.length pre = lo ->
  reslice_from (mkSlice (pre ++ post) r) lo = Ret (mkSlice post r).
Proof.
  intros Hlo. unfold reslice_from, len. cbn [elems room].
  rewrite length_app.
  replace (lo <=? List.length pre + List.length post)%nat with true
    by (symmetry; apply Nat.leb_le; lia).
  rewrite skipn_app, skipn_all2 by lia.
  replace (lo - List.length pre)%nat with 0%nat by lia. reflexivity.
Qed.

(** Both revisions dispatch on the id byte of a framed message; the first
    after dropping the four prefix bytes. *)
Lemma Prefixed_decode_id (b0 b1 b2 b3 id : byte) (rest r : list byte) :
  uint_of_byte id <= MsgTypePort ->
  Prefixed.DecodeMessage (mkSlice (b0 :: b1 :: b2 :: b3 :: id :: rest) r)
  = decodeSwitch (uint_of_byte id) (mkSlice (id :: rest) r).
Proof.
  intros Hk. pose proof (uint_of_byte_range id) as Hr.
  unfold Prefixed.DecodeMessage.
  change (len {| elems := b0 :: b1 :: b2 :: b3 :: id :: rest; room := r |}
          <=? 0)%nat with false.
  cbv iota. rewrite (Prefixed_GetMessageType_id _ id); [|reflexivity|].
  2:{ apply isHandshake_fifth. intros ->. vm_compute in Hk. congruence. }
  cbv zeta. destruct (Z.gtb_spec (uint_of_byte id) 12); [lia|].
  destruct (nameAt_ok (uint_of_byte id)) as (n & ->); [lia|].
  cbn [bind fst].
  destruct (Z.geb_spec (uint_of_byte id) 0); [|lia].
  destruct (Z.leb_spec (uint_of_byte id) 9); [|lia].
  reflexivity.
Qed.

Lemma Stripped_decode_id (id : byte) (rest r : list byte) :
  uint_of_byte id <= MsgTypePort ->
  Stripped.DecodeMessage (mkSlice (id :: rest) r)
  = decodeSwitch (uint_of_byte id) (mkSlice (id :: rest) r).
Proof.
  intros Hk. pose proof (uint_of_byte_range id) as Hr.
  unfold Stripped.DecodeMessage, Stripped.GetMessageType. cbv zeta.
  change (len {| elems := id :: rest; room := r |} <=? 0)%nat with false.
  cbv iota. rewrite isHandshake_first.
  2:{ intros ->. vm_compute in Hk. congruence. }
  cbn [bind index elems nth_error].
  destruct (Z.geb_spec (uint_of_byte id) 0); [|lia].
  destruct (Z.leb_spec (uint_of_byte id) 9); [|lia].
  cbn [andb]. destruct (Z.gtb_spec (uint_of_byte id) 12); [lia|].
  destruct (nameAt_ok (uint_of_byte id)) as (n & ->); [lia|].
  reflexivity.
Qed.


Lemma framed_decode (L : Z) (id : byte) (payload r : list byte) (m : MsgData) :
  uint_of_byte id <= MsgTypePort ->
  decodeSwitch (uint_of_byte id) (mkSlice (id :: payload) r)
  = Ret (Some m, true) ->
  Prefixed.DecodeMessage (mkSlice (getBytesFromUint32 L ++ id :: payload) r)
  = Ret (Some m, true)
  /\ Stripped.DecodeMessage
       (mkSlice (skipn 4 (getBytesFromUint32 L ++ id :: payload)) r)
     = Ret (Some m, true).
Proof.
  intros Hk Hs. unfold getBytesFromUint32. cbn [app skipn].
  now rewrite Prefixed_decode_id, Stripped_decode_id.
Qed.


Lemma decodeSwitch_Bitfield (id : byte) (bits r : list byte) :
  decodeSwitch MsgTypeBitfield (mkSlice (id :: bits) r)
  = Ret (Some (MsgDataBitfield (mkCommon MsgTypeBitfield) bits), true).
Proof.
  unfold decodeSwitch. change (id :: bits) with ([id] ++ bits).
  now rewrite (reslice_from_tail [id] bits r 1).
Qed.







(** * Further properties of the code *)

(** ** Big-endian values *)

(** Or-ing a multiple of [2^k] with a value below [2^k] adds them. *)
Lemma lor_high_low (x l k : Z) :
  0 <= k -> 0 <= l < 2 ^ k -> x mod 2 ^ k = 0 ->
  Z.lor x l = x + l.
Proof.
  intros Hk Hl Hx.
  assert (E : Z.land x l = 0).
  { apply Z.bits_inj'. intros i Hi. rewrite Z.land_spec, Z.bits_0.
    destruct (Z.lt_ge_cases i k) as [Hlt|Hge].
    - rewrite <- (Z.mod_pow2_bits_low x k i Hlt), Hx, Z.bits_0. reflexivity.
    - rewrite <- (Z.mod_small l (2 ^ k)) by lia.
      rewrite Z.mod_pow2_bits_high by lia. apply andb_false_r. }
  pose proof (Z.add_lor_land x l). lia.
Qed.

Lemma getUint32FromBytes_value (b0 b1 b2 b3 : byte) (rest r : list byte) :
  getUint32FromBytes (mkSlice (b0 :: b1 :: b2 :: b3 :: rest) r)
  = uint_of_byte b0 * 2 ^ 24 + uint_of_byte b1 * 2 ^ 16
    + uint_of_byte b2 * 2 ^ 8 + uint_of_byte b3.
Proof.
  unfold getUint32FromBytes. cbn [elems].
  pose proof (uint_of_byte_range b0). pose proof (uint_of_byte_range b1).
  pose proof (uint_of_byte_range b2). pose proof (uint_of_byte_range b3).
  rewrite !Z.shiftl_mul_pow2 by lia.
  change (2 ^ 32) with 4294967296. change (2 ^ 24) with 16777216.
  change (2 ^ 16) with 65536. change (2 ^ 8) with 256.
  rewrite !Z.mod_small by lia.
  set (u0 := uint_of_byte b0) in *. set (u1 := uint_of_byte b1) in *.
  set (u2 := uint_of_byte b2) in *. set (u3 := uint_of_byte b3) in *.
  rewrite (lor_high_low (u0 * 16777216) (u1 * 65536) 24);
    [|lia|change (2 ^ 24) with 16777216; lia
     |change (2 ^ 24) with 16777216; Z.div_mod_to_equations; lia].
  rewrite (lor_high_low (u0 * 16777216 + u1 * 65536) (u2 * 256) 16);
    [|lia|change (2 ^ 16) with 65536; lia
     |change (2 ^ 16) with 65536; Z.div_mod_to_equations; lia].
  rewrite (lor_high_low (u0 * 16777216 + u1 * 65536 + u2 * 256) u3 8);
    [|lia|change (2 ^ 8) with 256; lia
     |change (2 ^ 8) with 256; Z.div_mod_to_equations; lia].
  reflexivity.
Qed.

Lemma getUint16FromBytes_value (b0 b1 : byte) (rest r : list byte) :
  getUint16FromBytes (mkSlice (b0 :: b1 :: rest) r)
  = uint_of_byte b0 * 2 ^ 8 + uint_of_byte b1.
Proof.
  unfold getUint16FromBytes. cbn [elems].
  pose proof (uint_of_byte_range b0). pose proof (uint_of_byte_range b1).
  rewrite !Z.shiftl_mul_pow2 by lia.
  change (2 ^ 16) with 65536. change (2 ^ 8) with 256.
  rewrite !Z.mod_small by lia.
  rewrite (lor_high_low _ _ 8); [|lia|change (2^8) with 256; lia|].
  2:{ change (2 ^ 8) with 256. Z.div_mod_to_equations. lia. }
  reflexivity.
Qed.

Lemma byte_of_Z_field (v k : Z) (b : byte) :
  0 <= k -> (v / 2 ^ k) mod 256 = uint_of_byte b ->
  byte_of_Z (Z.land (Z.shiftr v k) 255) = b.
Proof.
  intros Hk E. change 255 with (Z.ones 8).
  rewrite Z.land_ones, Z.shiftr_div_pow2 by lia.
  change (2 ^ 8) with 256. rewrite E. apply byte_of_Z_of_byte.
Qed.

Lemma getBytes_getUint32 (b0 b1 b2 b3 : byte) (rest r : list byte) :
  getBytesFromUint32
    (getUint32FromBytes (mkSlice (b0 :: b1 :: b2 :: b3 :: rest) r))
  = [b0; b1; b2; b3].
Proof.
  rewrite getUint32FromBytes_value.
  pose proof (uint_of_byte_range b0). pose proof (uint_of_byte_range b1).
  pose proof (uint_of_byte_range b2). pose proof (uint_of_byte_range b3).
  unfold getBytesFromUint32.
  rewrite (byte_of_Z_field _ 24 b0), (byte_of_Z_field _ 16 b1),
    (byte_of_Z_field _ 8 b2); try lia.
  - replace (Z.land _ 255) with (Z.land (Z.shiftr
      (uint_of_byte b0 * 2 ^ 24 + uint_of_byte b1 * 2 ^ 16
       + uint_of_byte b2 * 2 ^ 8 + uint_of_byte b3) 0) 255)
      by now rewrite Z.shiftr_0_r.
    rewrite (byte_of_Z_field _ 0 b3); try lia; [reflexivity|].
    change (2 ^ 24) with 16777216. change (2 ^ 16) with 65536.
    change (2 ^ 8) with 256. change (2 ^ 0) with 1.
    Z.div_mod_to_equations. lia.
  - change (2 ^ 24) with 16777216. change (2 ^ 16) with 65536.
    change (2 ^ 8) with 256. Z.div_mod_to_equations. lia.
  - change (2 ^ 24) with 16777216. change (2 ^ 16) with 65536.
    change (2 ^ 8) with 256. Z.div_mod_to_equations. lia.
  - change (2 ^ 24) with 16777216. change (2 ^ 16) with 65536.
    change (2 ^ 8) with 256. Z.div_mod_to_equations. lia.
Qed.

(** X18: [EncodeMessage] succeeds exactly on the four payload-free kinds and,
    with a non-nil payload, on KeepAlive and on a record of the type of
    the kind whose bit vector or block, if it has one, is not empty. *)
Theorem encode_succeeds_iff (K : Z) (M : option MsgData) :
  snd (EncodeMessage K M) = encodable K M.
Proof.
  unfold EncodeMessage, encodable.
  split_kind K; destruct M as [[]|]; cbn; try reflexivity;
    match goal with
    | |- context [(List.length ?l <=? 0)%nat] => destruct l; reflexivity
    end.
Qed.

(** X19: The encoder's result does not depend on the tag of the record, the
    choke and interest flags, the handshake's protocol-name fields and
    reserved bytes, or the port. *)
Theorem encode_ignores_unsent_fields (K : Z) (m : MsgData) :
  EncodeMessage K (Some m) = EncodeMessage K (Some (forgetUnsent m)).
Proof.
  unfold EncodeMessage. split_kind K; destruct m; try reflexivity.
  cbn. now rewrite !getBytesFromUint16_all_ones.
Qed.

Lemma encode_framed_shape (K : Z) (M : option MsgData) (bs : list byte) :
  EncodeMessage K M = (bs, true) -> K <> MsgTypeHandshake ->
  exists rest,
    bs = getBytesFromUint32 (Z.of_nat (List.length rest) mod 2 ^ 32) ++ rest
    /\ (K <> MsgTypeKeepAlive -> exists payload, rest = byte_of_Z K :: payload).
Proof.
  intros H HK.
  split_kind K.
  all: try (exfalso; apply HK; reflexivity).
  all: clear HK; destruct M as [[]|].
  all: unfold EncodeMessage in H.
  all: cbv beta iota zeta in H.
  all: cbn [app] in H.
  all: try discriminate.
  all: try match type of H with
           | context [(List.length ?l <=? 0)%nat] =>
               destruct l as [|b0 l']; [discriminate H|];
               change (List.length (b0 :: l') <=? 0)%nat with false in H;
               cbv beta iota in H
           end.
  all: apply (f_equal fst) in H; cbn [fst] in H; subst bs.
  all: match goal with
       | |- exists rest, getBytesFromUint32 _ ++ ?t = _ /\ _ => exists t
       | |- exists rest, getBytesFromUint32 _ = _ /\ _ =>
           exists []; rewrite app_nil_r
       end.
  all: split;
    [ f_equal; f_equal
    | intros HA; try (exfalso; apply HA; reflexivity); eexists; reflexivity ].
  all: f_equal; unfold getBytesFromUint32;
    cbn [List.length app]; rewrite ?length_app; cbn [List.length]; lia.
Qed.

Lemma isHandshake_short (buf : slice) :
  (len buf <= 19)%nat -> isHandshake buf = Ret false.
Proof.
  intros H. unfold isHandshake.
  change (Z.to_nat (uint_of_byte goTrntHeaderLen)) with 19%nat.
  destruct (Nat.ltb_spec 19 (len buf)); [lia|reflexivity].
Qed.

Lemma reslice_from_ok (s : slice) (lo : nat) :
  (lo <= len s)%nat ->
  reslice_from s lo = Ret (mkSlice (skipn lo (elems s)) (room s)).
Proof.
  intros H. unfold reslice_from. apply Nat.leb_le in H. now rewrite H.
Qed.

Lemma Stripped_GetMessageType_id (id : byte) (rest r : list byte) :
  uint_of_byte id <= MsgTypePort ->
  Stripped.GetMessageType (mkSlice (id :: rest) r)
  = (name <- nameAt (uint_of_byte id) ;; Ret (uint_of_byte id, name)).
Proof.
  intros Hk. pose proof (uint_of_byte_range id) as Hr.
  unfold Stripped.GetMessageType. cbv zeta.
  change (len {| elems := id :: rest; room := r |} <=? 0)%nat with false.
  cbv iota. rewrite isHandshake_first.
  2:{ intros ->. vm_compute in Hk. congruence. }
  cbn [bind index elems nth_error].
  destruct (Z.geb_spec (uint_of_byte id) 0); [|lia].
  destruct (Z.leb_spec (uint_of_byte id) 9); [|lia].
  cbn [andb]. destruct (Z.gtb_spec (uint_of_byte id) 12); [lia|].
  reflexivity.
Qed.

(** X9: The classifiers return for every buffer, with a kind of the table and
    its name. *)
Theorem classifier_never_faults (buf : slice) :
  (exists k name, Prefixed.GetMessageType buf = Ret (k, name)
                  /\ 0 <= k <= MsgTypeInvalid /\ nameAt k = Ret name)
  /\ (exists k name, Stripped.GetMessageType buf = Ret (k, name)
                     /\ 0 <= k <= MsgTypeInvalid /\ nameAt k = Ret name).
Proof.
  split.
  - unfold Prefixed.GetMessageType.
    destruct (isHandshake_total buf) as [-> | ->]; cbn [bind].
    + exists 10, "Handshake"%string. repeat split; lia.
    + destruct (Nat.ltb_spec 4 (len buf)) as [Hl|Hl].
      * destruct (index_ok buf 4 Hl) as (b & -> & _). cbn [bind].
        pose proof (uint_of_byte_range b) as Hr.
        set (k := if uint_of_byte b >? 12 then 12 else uint_of_byte b).
        assert (Hk : 0 <= k <= 12)
          by (subst k; destruct (Z.gtb_spec (uint_of_byte b) 12); lia).
        destruct (nameAt_ok k Hk) as (n & Hn). rewrite Hn. cbn [bind].
        exists k, n. auto.
      * exists 12, "Invalid"%string. repeat split; lia.
  - unfold Stripped.GetMessageType. cbv zeta.
    destruct (Nat.leb_spec (len buf) 0) as [Hl|Hl].
    + exists 12, "Invalid"%string. repeat split; lia.
    + destruct (isHandshake_total buf) as [-> | ->]; cbn [bind].
      * exists 10, "Handshake"%string. repeat split; lia.
      * destruct (index_ok buf 0 Hl) as (b & -> & _). cbn [bind].
        pose proof (uint_of_byte_range b) as Hr.
        destruct ((uint_of_byte b >=? 0) && (uint_of_byte b <=? 9)) eqn:E.
        -- apply andb_prop in E. destruct E as [_ E]. apply Z.leb_le in E.
           destruct (Z.gtb_spec (uint_of_byte b) 12); [lia|].
           destruct (nameAt_ok (uint_of_byte b)) as (n & Hn); [lia|].
           rewrite Hn. cbn [bind]. exists (uint_of_byte b), n.
           repeat split; auto; lia.
        -- exists 12, "Invalid"%string. repeat split; lia.
Qed.

(** X10: What the offset-0 classifier can return: the id byte itself when it
    is at most 9, Handshake exactly on the handshake pattern, Invalid
    otherwise; never KeepAlive. *)
Theorem Stripped_classification (buf : slice) (k : Z) (name : string) :
  Stripped.GetMessageType buf = Ret (k, name) ->
  (0 <= k <= MsgTypePort
   /\ exists b, nth_error (elems buf) 0 = Some b /\ uint_of_byte b = k)
  \/ (k = MsgTypeHandshake
      /\ exists rest, elems buf = x13 :: headerBytes ++ rest)
  \/ k = MsgTypeInvalid.
Proof.
  unfold Stripped.GetMessageType. cbv zeta.
  destruct (Nat.leb_spec (len buf) 0) as [Hl|Hl].
  - intros H. apply bind_name_inv in H. tauto.
  - destruct (isHandshake_total buf) as [Hh | Hh]; rewrite Hh; cbn [bind].
    + intros H. apply bind_name_inv in H. right. left.
      split; [tauto|]. now apply isHandshake_true_inv.
    + destruct (index_ok buf 0 Hl) as (b & -> & Hb). cbn [bind].
      pose proof (uint_of_byte_range b) as Hr.
      destruct ((uint_of_byte b >=? 0) && (uint_of_byte b <=? 9)) eqn:E.
      * apply andb_prop in E. destruct E as [_ E]. apply Z.leb_le in E.
        destruct (Z.gtb_spec (uint_of_byte b) 12) as [Hg|Hg]; [lia|].
        intros H. apply bind_name_inv in H. destruct H as [-> _].
        left. split; [lia|]. eauto.
      * intros H. apply bind_name_inv in H. tauto.
Qed.

Lemma Stripped_classification_witness :
  (0 <= 4 <= MsgTypePort
   /\ exists b, nth_error (elems (sliceOf [x04])) 0 = Some b
                /\ uint_of_byte b = 4)
  \/ (4 = MsgTypeHandshake
      /\ exists rest, elems (sliceOf [x04]) = x13 :: headerBytes ++ rest)
  \/ 4 = MsgTypeInvalid.
Proof.
  apply (Stripped_classification (sliceOf [x04]) 4 "Have"%string).
  reflexivity.
Defined.

(** X11: Buffers too short to hold an id: at most four bytes for the offset-4
    classifier, none for the offset-0 one.  They are Invalid and decoding
    reports failure without a fault. *)
Theorem short_buffers_are_Invalid (buf : slice) :
  ((len buf <= 4)%nat ->
   Prefixed.GetMessageType buf = Ret (MsgTypeInvalid, "Invalid"%string)
   /\ Prefixed.DecodeMessage buf = Ret (None, false))
  /\ (len buf = 0%nat ->
      Stripped.GetMessageType buf = Ret (MsgTypeInvalid, "Invalid"%string)
      /\ Stripped.DecodeMessage buf = Ret (None, false)).
Proof.
  split; intros H.
  - assert (E : Prefixed.GetMessageType buf = Ret (12, "Invalid"%string)).
    { unfold Prefixed.GetMessageType.
      rewrite isHandshake_short by lia. cbn [bind].
      destruct (Nat.ltb_spec 4 (len buf)); [lia|reflexivity]. }
    split; [exact E|]. unfold Prefixed.DecodeMessage. rewrite E.
    destruct (len buf <=? 0)%nat; reflexivity.
  - unfold Stripped.DecodeMessage, Stripped.GetMessageType. rewrite H.
    split; reflexivity.
Qed.

Lemma short_buffers_are_Invalid_witness :
  Prefixed.GetMessageType (sliceOf [x00; x00; x00; x00])
  = Ret (MsgTypeInvalid, "Invalid"%string)
  /\ Prefixed.DecodeMessage (sliceOf [x00; x00; x00; x00]) = Ret (None, false).
Proof.
  apply (proj1 (short_buffers_are_Invalid (sliceOf [x00; x00; x00; x00]))).
  vm_compute. lia.
Defined.

Lemma decodeSwitch_all_or_nothing (k : Z) (buf : slice)
      (o : option MsgData) (b : bool) :
  decodeSwitch k buf = Ret (o, b) ->
  (o = None /\ b = false) \/ (exists m, o = Some m /\ b = true).
Proof.
  unfold decodeSwitch. split_kind k;
    repeat match goal with
           | |- context [bind ?x _] => destruct x; cbn [bind]
           end;
    intros H; try discriminate;
    apply (f_equal (fun x => match x with Ret p => p | Panic => (o, b) end))
      in H;
    apply (f_equal fst) in H as H1; apply (f_equal snd) in H as H2;
    cbn [fst snd] in H1, H2; subst o b; eauto.
Qed.

(** X12: A decoder result is a message with [true] or no message with
    [false], never a mixture. *)
Theorem decode_all_or_nothing (buf : slice) (o : option MsgData) (b : bool) :
  (Prefixed.DecodeMessage buf = Ret (o, b) ->
   (o = None /\ b = false) \/ (exists m, o = Some m /\ b = true))
  /\ (Stripped.DecodeMessage buf = Ret (o, b) ->
      (o = None /\ b = false) \/ (exists m, o = Some m /\ b = true)).
Proof.
  split.
  - unfold Prefixed.DecodeMessage. destruct (len buf <=? 0)%nat.
    + intros H. left. split; congruence.
    + destruct (Prefixed.GetMessageType buf) as [[k n]|]; cbn [bind fst];
        [|discriminate].
      destruct (if (k >=? 0) && (k <=? 9) then reslice_from buf 4 else Ret buf);
        cbn [bind]; [|discriminate].
      apply decodeSwitch_all_or_nothing.
  - unfold Stripped.DecodeMessage. destruct (len buf <=? 0)%nat.
    + intros H. left. split; congruence.
    + destruct (Stripped.GetMessageType buf) as [[k n]|]; cbn [bind fst];
        [|discriminate].
      apply decodeSwitch_all_or_nothing.
Qed.

Lemma decode_all_or_nothing_witness :
  (@None MsgData = None /\ false = false)
  \/ (exists m : MsgData, None = Some m /\ false = true).
Proof.
  apply (proj2 (decode_all_or_nothing (sliceOf [x0b]) None false)).
  reflexivity.
Defined.

Lemma decodeSwitch_long (k : Z) (buf : slice) :
  (minLen k <= len buf)%nat -> exists res, decodeSwitch k buf = Ret res.
Proof.
  intros H. pose proof (len_le_cap buf) as Hc.
  unfold decodeSwitch. split_kind k; cbn [minLen] in H;
    repeat match goal with
           | |- context [reslice buf ?lo ?hi] =>
               rewrite (reslice_ok buf lo hi) by lia; cbn [bind]
           | |- context [reslice_from buf ?lo] =>
               rewrite (reslice_from_ok buf lo) by lia; cbn [bind]
           | |- context [index buf 0] =>
               destruct (index_ok buf 0) as (b & -> & _); [lia|];
               cbn [bind]
           end;
    eauto.
Qed.

(** X13: The decoders return, without a fault, on every buffer that has the
    length its classified kind needs: 5 bytes from the id for Have, 1 for
    Bitfield, 13 for Request and Cancel, 9 for Piece, 3 for Port, 68 for a
    handshake; [gotrntmessages.go] needs the four prefix bytes on top for
    the kinds up to Port. *)
Theorem decode_returns_on_full_length (buf : slice) (k : Z) (name : string) :
  (Stripped.GetMessageType buf = Ret (k, name) ->
   (minLen k <= len buf)%nat ->
   exists res, Stripped.DecodeMessage buf = Ret res)
  /\ (Prefixed.GetMessageType buf = Ret (k, name) ->
      ((if (k <=? MsgTypePort)%Z then 4 + minLen k else minLen k)
       <= len buf)%nat ->
      exists res, Prefixed.DecodeMessage buf = Ret res).
Proof.
  split; intros Hc Hl.
  - unfold Stripped.DecodeMessage. destruct (len buf <=? 0)%nat; [eauto|].
    rewrite Hc. cbn [bind fst]. now apply decodeSwitch_long.
  - unfold Prefixed.DecodeMessage. destruct (len buf <=? 0)%nat; [eauto|].
    rewrite Hc. cbn [bind fst].
    destruct (Z.leb_spec k 9) as [H9|H9].
    + destruct (k >=? 0); cbn [andb].
      * rewrite reslice_from_ok by lia. cbn [bind].
        apply decodeSwitch_long. unfold len in *. cbn [elems].
        rewrite length_skipn. lia.
      * cbn [bind]. apply decodeSwitch_long. lia.
    + rewrite andb_false_r. cbn [bind]. now apply decodeSwitch_long.
Qed.

Lemma decode_returns_on_full_length_witness :
  exists res,
    Stripped.DecodeMessage (sliceOf [x09; x1a; xe1]) = Ret res.
Proof.
  apply (proj1 (decode_returns_on_full_length
                  (sliceOf [x09; x1a; xe1]) 9 "Port"%string));
    [reflexivity | vm_compute; lia].
Defined.

(** X15: On a framed message the two revisions agree: [gotrntmessages.go] on
    four prefix bytes followed by the id, the other revision on the id
    onwards.  The value of the prefix bytes plays no part. *)
Theorem revisions_agree_on_framed_messages
        (b0 b1 b2 b3 id : byte) (rest r : list byte) :
  uint_of_byte id <= MsgTypePort ->
  Prefixed.DecodeMessage (mkSlice (b0 :: b1 :: b2 :: b3 :: id :: rest) r)
  = Stripped.DecodeMessage (mkSlice (id :: rest) r).
Proof.
  intros H. now rewrite Prefixed_decode_id, Stripped_decode_id.
Qed.

Lemma revisions_agree_on_framed_messages_witness :
  Prefixed.DecodeMessage
    (mkSlice [xff; xff; xff; xff; x04; x00; x00; x00; x2a] [])
  = Stripped.DecodeMessage (mkSlice [x04; x00; x00; x00; x2a] []).
Proof.
  apply revisions_agree_on_framed_messages. vm_compute. discriminate.
Defined.

Lemma decodeSwitch_Handshake_fields (rsv ih pid extra r : list byte) :
  List.length rsv = 8%nat -> List.length ih = 20%nat ->
  List.length pid = 20%nat ->
  decodeSwitch MsgTypeHandshake
    (mkSlice (x13 :: headerBytes ++ rsv ++ ih ++ pid ++ extra) r)
  = Ret (Some (MsgDataHandshake (mkCommon MsgTypeHandshake) 19 goTrntHeader
                 (string_of_list_byte rsv) (string_of_list_byte ih)
                 (string_of_list_byte pid)), true).
Proof.
  intros Hr Hi Hp.
  assert (R1 := reslice_mid [x13] headerBytes (rsv ++ ih ++ pid ++ extra)
                  r 1 20 eq_refl eq_refl).
  assert (R2 := reslice_mid (x13 :: headerBytes) rsv (ih ++ pid ++ extra)
                  r 20 28 eq_refl).
  assert (R3 := reslice_mid (x13 :: headerBytes ++ rsv) ih (pid ++ extra)
                  r 28 48).
  assert (R4 := reslice_mid (x13 :: headerBytes ++ rsv ++ ih) pid extra
                  r 48 68).
  assert (E3 : (x13 :: headerBytes ++ rsv) ++ ih ++ pid ++ extra
               = x13 :: headerBytes ++ rsv ++ ih ++ pid ++ extra)
    by (cbn [app]; now rewrite <- !app_assoc).
  assert (E4 : (x13 :: headerBytes ++ rsv ++ ih) ++ pid ++ extra
               = x13 :: headerBytes ++ rsv ++ ih ++ pid ++ extra)
    by (cbn [app]; now rewrite <- !app_assoc).
  change ([x13] ++ headerBytes ++ rsv ++ ih ++ pid ++ extra)
    with (x13 :: headerBytes ++ rsv ++ ih ++ pid ++ extra) in R1.
  change ((x13 :: headerBytes) ++ rsv ++ ih ++ pid ++ extra)
    with (x13 :: headerBytes ++ rsv ++ ih ++ pid ++ extra) in R2.
  rewrite E3 in R3. rewrite E4 in R4.
  unfold decodeSwitch, index. cbn [elems nth_error bind].
  rewrite R1, R2, R3, R4; cbn [bind]; try reflexivity;
    cbn [List.length app]; rewrite ?length_app, ?Hr, ?Hi, ?Hp;
    reflexivity.
Qed.

(** Both decoders hand a buffer with the handshake pattern to the
    Handshake case as it is. *)
Lemma decode_handshake_pattern (rest r : list byte) :
  Prefixed.DecodeMessage (mkSlice (x13 :: headerBytes ++ rest) r)
  = decodeSwitch MsgTypeHandshake (mkSlice (x13 :: headerBytes ++ rest) r)
  /\ Stripped.DecodeMessage (mkSlice (x13 :: headerBytes ++ rest) r)
     = decodeSwitch MsgTypeHandshake (mkSlice (x13 :: headerBytes ++ rest) r).
Proof.
  unfold Prefixed.DecodeMessage, Stripped.DecodeMessage.
  unfold Prefixed.GetMessageType, Stripped.GetMessageType. cbv zeta.
  change (len (mkSlice (x13 :: headerBytes ++ rest) r) <=? 0)%nat with false.
  cbv iota. rewrite isHandshake_true_intro. cbn [bind fst nameAt].
  split; reflexivity.
Qed.

(** X21: A handshake buffer is decoded field by field: protocol name length
    19, the name, the eight reserved bytes as received, the info hash and
    the peer id; bytes after the 68th are ignored. *)
Theorem decode_handshake_fields (rsv ih pid extra r : list byte) :
  List.length rsv = 8%nat -> List.length ih = 20%nat ->
  List.length pid = 20%nat ->
  let buf := mkSlice (x13 :: headerBytes ++ rsv ++ ih ++ pid ++ extra) r in
  let m := MsgDataHandshake (mkCommon MsgTypeHandshake) 19 goTrntHeader
             (string_of_list_byte rsv) (string_of_list_byte ih)
             (string_of_list_byte pid) in
  Prefixed.DecodeMessage buf = Ret (Some m, true)
  /\ Stripped.DecodeMessage buf = Ret (Some m, true).
Proof.
  intros Hr Hi Hp buf m. subst buf m.
  destruct (decode_handshake_pattern (rsv ++ ih ++ pid ++ extra) r)
    as [-> ->].
  split; now apply decodeSwitch_Handshake_fields.
Qed.

Lemma decode_handshake_fields_witness :
  Prefixed.DecodeMessage
    (mkSlice (x13 :: headerBytes ++ repeat x01 8 ++ repeat x02 20
                  ++ repeat x03 20 ++ [xff]) [])
  = Ret (Some (MsgDataHandshake (mkCommon MsgTypeHandshake) 19 goTrntHeader
                 (string_of_list_byte (repeat x01 8))
                 (string_of_list_byte (repeat x02 20))
                 (string_of_list_byte (repeat x03 20))), true).
Proof.
  apply (proj1 (decode_handshake_fields (repeat x01 8) (repeat x02 20)
                  (repeat x03 20) [xff] [] eq_refl eq_refl eq_refl)).
Defined.

(** ** Byte-order helpers, end to end *)

(** X1: Writing a 32-bit value and reading it back gives the value; bytes
    after the fourth are not read. *)
Theorem uint32_write_then_read (n : Z) (rest r : list byte) :
  0 <= n < 2 ^ 32 ->
  getUint32FromBytes (mkSlice (getBytesFromUint32 n ++ rest) r) = n.
Proof.
  intros Hn. rewrite <- (getUint32_getBytes n (sliceOf (getBytesFromUint32 n)))
    at 2 by (assumption || reflexivity).
  reflexivity.
Qed.

Lemma uint32_write_then_read_witness :
  getUint32FromBytes (mkSlice (getBytesFromUint32 6881 ++ [xff]) []) = 6881.
Proof. apply uint32_write_then_read. lia. Defined.

(** X2: Reading a buffer of at least four bytes and writing the value back
    gives the first four bytes of the buffer. *)
Theorem uint32_read_then_write (s : slice) :
  (4 <= len s)%nat ->
  getBytesFromUint32 (getUint32FromBytes s) = firstn 4 (elems s).
Proof.
  destruct s as [[|b0 [|b1 [|b2 [|b3 rest]]]] r]; unfold len;
    cbn [elems List.length]; intros H; try (exfalso; lia).
  apply getBytes_getUint32.
Qed.

Lemma uint32_read_then_write_witness :
  getBytesFromUint32
    (getUint32FromBytes (sliceOf [x00; x00; x1a; xe1; xff]))
  = firstn 4 (elems (sliceOf [x00; x00; x1a; xe1; xff])).
Proof. apply uint32_read_then_write. vm_compute. lia. Defined.

(** X3: The 32-bit reader is big-endian and stays within 32 bits; on fewer
    than four bytes it returns 0. *)
Theorem uint32_read_is_big_endian (s : slice) :
  0 <= getUint32FromBytes s < 2 ^ 32
  /\ match elems s with
     | b0 :: b1 :: b2 :: b3 :: _ =>
         getUint32FromBytes s
         = uint_of_byte b0 * 2 ^ 24 + uint_of_byte b1 * 2 ^ 16
           + uint_of_byte b2 * 2 ^ 8 + uint_of_byte b3
     | _ => getUint32FromBytes s = 0
     end.
Proof.
  destruct s as [[|b0 [|b1 [|b2 [|b3 rest]]]] r]; cbn [elems].
  1-4: split; [unfold getUint32FromBytes; cbn [elems]; split;
               [lia | reflexivity] | reflexivity].
  rewrite getUint32FromBytes_value. split; [|reflexivity].
  pose proof (uint_of_byte_range b0). pose proof (uint_of_byte_range b1).
  pose proof (uint_of_byte_range b2). pose proof (uint_of_byte_range b3).
  change (2 ^ 32) with 4294967296. change (2 ^ 24) with 16777216.
  change (2 ^ 16) with 65536. change (2 ^ 8) with 256. lia.
Qed.

(** X4: The 16-bit reader is big-endian and stays within 16 bits; on fewer
    than two bytes it returns 0. *)
Theorem uint16_read_is_big_endian (s : slice) :
  0 <= getUint16FromBytes s < 2 ^ 16
  /\ match elems s with
     | b0 :: b1 :: _ =>
         getUint16FromBytes s = uint_of_byte b0 * 2 ^ 8 + uint_of_byte b1
     | _ => getUint16FromBytes s = 0
     end.
Proof.
  destruct s as [[|b0 [|b1 rest]] r]; cbn [elems].
  1-2: split; [unfold getUint16FromBytes; cbn [elems]; split;
               [lia | reflexivity] | reflexivity].
  rewrite getUint16FromBytes_value. split; [|reflexivity].
  pose proof (uint_of_byte_range b0). pose proof (uint_of_byte_range b1).
  change (2 ^ 16) with 65536. change (2 ^ 8) with 256. lia.
Qed.


(** ** Shape of the encoder's output *)

Lemma encode_kind_range (K : Z) (M : option MsgData) (bs : list byte) :
  EncodeMessage K M = (bs, true) -> 0 <= K <= MsgTypeKeepAlive.
Proof.
  intros H. split_kind K; try lia; exfalso;
    unfold EncodeMessage in H; cbv beta iota zeta in H;
    destruct M as [m|]; discriminate.
Qed.

Lemma encode_handshake_shape (M : option MsgData) (bs : list byte) :
  EncodeMessage MsgTypeHandshake M = (bs, true) ->
  exists rest, bs = x13 :: headerBytes ++ rest.
Proof.
  intros H. unfold EncodeMessage in H. cbv beta iota zeta in H.
  destruct M as [[]|]; try discriminate.
  apply (f_equal fst) in H. cbn [fst] in H. subst bs.
  eexists. reflexivity.
Qed.

(** X6: Except for a handshake, the first four bytes of an encoded message
    are the big-endian count of the bytes that follow them. *)
Theorem encode_length_prefix (K : Z) (M : option MsgData) (bs : list byte) :
  EncodeMessage K M = (bs, true) -> K <> MsgTypeHandshake ->
  firstn 4 bs
  = getBytesFromUint32 (Z.of_nat (List.length (skipn 4 bs)) mod 2 ^ 32).
Proof.
  intros H HK. destruct (encode_framed_shape K M bs H HK) as (rest & -> & _).
  change (firstn 4 (getBytesFromUint32 ?x ++ rest))
    with (getBytesFromUint32 x).
  reflexivity.
Qed.

Lemma encode_length_prefix_witness :
  firstn 4 [x00; x00; x00; x03; x05; x80; x01]
  = getBytesFromUint32
      (Z.of_nat (List.length (skipn 4 [x00; x00; x00; x03; x05; x80; x01]))
       mod 2 ^ 32).
Proof.
  apply (encode_length_prefix MsgTypeBitfield
           (Some (MsgDataBitfield (mkCommon MsgTypeBitfield) [x80; x01])));
    [reflexivity | lia].
Defined.

(** X7: For the kinds Choke to Port, the fifth byte of an encoded message is
    the kind's ordinal. *)
Theorem encode_id_byte (K : Z) (M : option MsgData) (bs : list byte) :
  EncodeMessage K M = (bs, true) -> K <= MsgTypePort ->
  nth_error bs 4 = Some (byte_of_Z K).
Proof.
  intros H HK.
  destruct (encode_framed_shape K M bs H) as (rest & -> & Hp); [lia|].
  destruct Hp as (payload & ->); [lia|]. reflexivity.
Qed.

Lemma encode_id_byte_witness :
  nth_error [x00; x00; x00; x01; x02] 4 = Some (byte_of_Z MsgTypeInterested).
Proof.
  apply (encode_id_byte MsgTypeInterested None); [reflexivity | lia].
Defined.

(** X8: Both classifiers recognise what the encoder produces: every encoded
    message other than KeepAlive is classified as the kind it was encoded
    under. *)
Theorem classifier_recognises_encoded
        (K : Z) (M : option MsgData) (bs r : list byte) :
  EncodeMessage K M = (bs, true) -> K <> MsgTypeKeepAlive ->
  exists name,
    nameAt K = Ret name
    /\ Prefixed.GetMessageType (mkSlice bs r) = Ret (K, name)
    /\ Stripped.GetMessageType (mkSlice (withoutPrefix K bs) r)
       = Ret (K, name).
Proof.
  intros H HK. pose proof (encode_kind_range K M bs H) as Hr.
  destruct (Z.eq_dec K 10) as [->|H10].
  - destruct (encode_handshake_shape M bs H) as (rest & ->).
    exists "Handshake"%string. unfold withoutPrefix. cbn [Z.eqb].
    unfold Prefixed.GetMessageType, Stripped.GetMessageType.
    rewrite isHandshake_true_intro. repeat split.
  - destruct (encode_framed_shape K M bs H H10) as (rest & -> & Hp).
    destruct (Hp HK) as (payload & ->).
    assert (Hu : uint_of_byte (byte_of_Z K) = K)
      by (rewrite uint_of_byte_of_Z; apply Z.mod_small; lia).
    destruct (nameAt_ok K) as (name & Hn); [lia|].
    exists name. split; [exact Hn|]. unfold withoutPrefix.
    destruct (Z.eqb_spec K 10); [contradiction|].
    unfold getBytesFromUint32. cbn [app skipn]. split.
    + rewrite (Prefixed_GetMessageType_id _ (byte_of_Z K)); [|reflexivity|].
      * rewrite Hu. cbv zeta.
        destruct (Z.gtb_spec K 12); [lia|]. now rewrite Hn.
      * apply isHandshake_fifth. intros E. rewrite E in Hu.
        vm_compute in Hu. lia.
    + rewrite Stripped_GetMessageType_id by lia. rewrite Hu. now rewrite Hn.
Qed.

Lemma classifier_recognises_encoded_witness :
  exists name,
    nameAt MsgTypeCancel = Ret name
    /\ Prefixed.GetMessageType
         (mkSlice (fst (EncodeMessage MsgTypeCancel
            (Some (MsgDataRequestCancel (mkCommon MsgTypeCancel) 1 2 3)))) [])
       = Ret (MsgTypeCancel, name)
    /\ Stripped.GetMessageType
         (mkSlice (withoutPrefix MsgTypeCancel
            (fst (EncodeMessage MsgTypeCancel
               (Some (MsgDataRequestCancel (mkCommon MsgTypeCancel) 1 2 3)))))
            [])
       = Ret (MsgTypeCancel, name).
Proof.
  apply (classifier_recognises_encoded MsgTypeCancel
           (Some (MsgDataRequestCancel (mkCommon MsgTypeCancel) 1 2 3)));
    [reflexivity | lia].
Defined.

(** ** The decoder on explicit bytes *)

Lemma decodeSwitch_Have_bytes (id a b c d : byte) (rest r : list byte) :
  decodeSwitch MsgTypeHave (mkSlice (id :: a :: b :: c :: d :: rest) r)
  = Ret (Some (MsgDataHave (mkCommon MsgTypeHave)
                 (getUint32FromBytes (mkSlice [a; b; c; d] (rest ++ r)))),
         true).
Proof. reflexivity. Qed.

Lemma decodeSwitch_Port_bytes (id a b : byte) (rest r : list byte) :
  decodeSwitch MsgTypePort (mkSlice (id :: a :: b :: rest) r)
  = Ret (Some (MsgDataPort (mkCommon MsgTypePort)
                 (getUint16FromBytes (mkSlice [a; b] (rest ++ r)))),
         true).
Proof. reflexivity. Qed.

Lemma decodeSwitch_RequestCancel_bytes
      (K : Z) (id a0 a1 a2 a3 b0 b1 b2 b3 c0 c1 c2 c3 : byte)
      (rest r : list byte) :
  K = MsgTypeRequest \/ K = MsgTypeCancel ->
  decodeSwitch K
    (mkSlice (id :: a0 :: a1 :: a2 :: a3 :: b0 :: b1 :: b2 :: b3
                 :: c0 :: c1 :: c2 :: c3 :: rest) r)
  = Ret (Some (MsgDataRequestCancel (mkCommon K)
                 (getUint32FromBytes
                    (mkSlice [a0; a1; a2; a3]
                       (b0 :: b1 :: b2 :: b3 :: c0 :: c1 :: c2 :: c3
                           :: rest ++ r)))
                 (getUint32FromBytes
                    (mkSlice [b0; b1; b2; b3]
                       (c0 :: c1 :: c2 :: c3 :: rest ++ r)))
                 (getUint32FromBytes (mkSlice [c0; c1; c2; c3] (rest ++ r)))),
         true).
Proof. intros [-> | ->]; reflexivity. Qed.

Lemma decodeSwitch_Piece_bytes
      (id a0 a1 a2 a3 b0 b1 b2 b3 : byte) (blk r : list byte) :
  decodeSwitch MsgTypePiece
    (mkSlice (id :: a0 :: a1 :: a2 :: a3 :: b0 :: b1 :: b2 :: b3 :: blk) r)
  = Ret (Some (MsgDataPiece (mkCommon MsgTypePiece)
                 (getUint32FromBytes
                    (mkSlice [a0; a1; a2; a3]
                       (b0 :: b1 :: b2 :: b3 :: blk ++ r)))
                 (getUint32FromBytes (mkSlice [b0; b1; b2; b3] (blk ++ r)))
                 blk),
         true).
Proof. reflexivity. Qed.

(** X24: The integer fields are read big-endian from fixed offsets after the
    id byte, and bytes after the last field are ignored: piece index of
    Have, listen port of Port, the three fields of Request. *)
Theorem decode_integers_big_endian
        (a0 a1 a2 a3 b0 b1 b2 b3 c0 c1 c2 c3 : byte) (extra r : list byte) :
  Stripped.DecodeMessage (mkSlice (x04 :: a0 :: a1 :: a2 :: a3 :: extra) r)
  = Ret (Some (MsgDataHave (mkCommon MsgTypeHave)
                 (bigEndian32 a0 a1 a2 a3)), true)
  /\ Stripped.DecodeMessage (mkSlice (x09 :: a0 :: a1 :: extra) r)
     = Ret (Some (MsgDataPort (mkCommon MsgTypePort) (bigEndian16 a0 a1)),
            true)
  /\ Stripped.DecodeMessage
       (mkSlice (x06 :: a0 :: a1 :: a2 :: a3 :: b0 :: b1 :: b2 :: b3
                     :: c0 :: c1 :: c2 :: c3 :: extra) r)
     = Ret (Some (MsgDataRequestCancel (mkCommon MsgTypeRequest)
                    (bigEndian32 a0 a1 a2 a3) (bigEndian32 b0 b1 b2 b3)
                    (bigEndian32 c0 c1 c2 c3)), true).
Proof.
  unfold bigEndian32, bigEndian16.
  rewrite !Stripped_decode_id by (vm_compute; discriminate).
  change (uint_of_byte x04) with 4. change (uint_of_byte x09) with 9.
  change (uint_of_byte x06) with 6.
  rewrite decodeSwitch_Have_bytes, decodeSwitch_Port_bytes.
  rewrite (decodeSwitch_RequestCancel_bytes 6) by auto.
  now rewrite !getUint32FromBytes_value, getUint16FromBytes_value.
Qed.

(** X23: A Bitfield message is decoded to everything after its id byte, an
    empty bit vector included, although the encoder refuses to encode an
    empty one. *)
Theorem decode_Bitfield_takes_whole_tail
        (b0 b1 b2 b3 : byte) (bits r : list byte) (c : MsgDataCommon) :
  Prefixed.DecodeMessage (mkSlice (b0 :: b1 :: b2 :: b3 :: x05 :: bits) r)
  = Ret (Some (MsgDataBitfield (mkCommon MsgTypeBitfield) bits), true)
  /\ Stripped.DecodeMessage (mkSlice (x05 :: bits) r)
     = Ret (Some (MsgDataBitfield (mkCommon MsgTypeBitfield) bits), true)
  /\ EncodeMessage MsgTypeBitfield (Some (MsgDataBitfield c [])) = ([], false).
Proof.
  rewrite Prefixed_decode_id, Stripped_decode_id
    by (vm_compute; discriminate).
  change (uint_of_byte x05) with 5.
  rewrite decodeSwitch_Bitfield. repeat split.
Qed.

(** X22: [GetMsgType] on a record of the package returns exactly when the tag
    of the record is an index of the name table, and then returns the tag
    with its name. *)
Theorem GetMsgType_defined_iff_tag_in_table (m : MsgData) (c : MsgDataCommon) :
  common m = Some c ->
  (0 <= MsgType c <= MsgTypeInvalid ->
   exists name, nameAt (MsgType c) = Ret name
                /\ GetMsgType m = Ret (MsgType c, name))
  /\ (~ 0 <= MsgType c <= MsgTypeInvalid -> GetMsgType m = Panic).
Proof.
  intros Hc. unfold GetMsgType. rewrite Hc. split; intros Hr.
  - destruct (nameAt_ok _ Hr) as (n & Hn). rewrite Hn. eauto.
  - unfold nameAt. destruct (Z.ltb_spec (MsgType c) 0); [reflexivity|].
    destruct (nth_error MsgTypeNames (Z.to_nat (MsgType c))) as [s|] eqn:E;
      [|reflexivity].
    assert (Hl : (Z.to_nat (MsgType c) < List.length MsgTypeNames)%nat)
      by (apply nth_error_Some; congruence).
    cbn in Hl. lia.
Qed.

Lemma GetMsgType_defined_iff_tag_in_table_witness :
  GetMsgType (MsgDataHave (mkCommon 13) 0) = Panic.
Proof.
  apply (proj2 (GetMsgType_defined_iff_tag_in_table
                  (MsgDataHave (mkCommon 13) 0) (mkCommon 13) eq_refl)).
  cbn. lia.
Defined.

(** ** Decoding, then encoding again *)

(** X16: A message of the size the encoder produces, other than Port, is
    decoded to a record whose encoding is the message again, behind its
    length prefix; [gotrntmessages.go] decodes that encoding to the same
    record. *)
Theorem decode_then_encode (k : Z) (payload r : list byte) :
  exactPayload k payload = true ->
  exists m,
    Stripped.DecodeMessage (mkSlice (byte_of_Z k :: payload) r)
    = Ret (Some m, true)
    /\ EncodeMessage k (Some m)
       = (getBytesFromUint32
            (Z.of_nat (List.length (byte_of_Z k :: payload)) mod 2 ^ 32)
            ++ byte_of_Z k :: payload, true)
    /\ Prefixed.DecodeMessage
         (mkSlice (getBytesFromUint32
                     (Z.of_nat (List.length (byte_of_Z k :: payload))
                      mod 2 ^ 32)
                     ++ byte_of_Z k :: payload) r)
       = Ret (Some m, true).
Proof.
  intros H.
  assert (F : forall (m : MsgData) (L : Z),
             uint_of_byte (byte_of_Z k) <= 9 ->
             decodeSwitch (uint_of_byte (byte_of_Z k))
               (mkSlice (byte_of_Z k :: payload) r) = Ret (Some m, true) ->
             EncodeMessage k (Some m)
             = (getBytesFromUint32 L ++ byte_of_Z k :: payload, true) ->
             L = Z.of_nat (List.length (byte_of_Z k :: payload)) mod 2 ^ 32 ->
             exists m0,
               Stripped.DecodeMessage (mkSlice (byte_of_Z k :: payload) r)
               = Ret (Some m0, true)
               /\ EncodeMessage k (Some m0)
                  = (getBytesFromUint32
                       (Z.of_nat (List.length (byte_of_Z k :: payload))
                        mod 2 ^ 32) ++ byte_of_Z k :: payload, true)
               /\ Prefixed.DecodeMessage
                    (mkSlice (getBytesFromUint32
                                (Z.of_nat
                                   (List.length (byte_of_Z k :: payload))
                                 mod 2 ^ 32)
                                ++ byte_of_Z k :: payload) r)
                  = Ret (Some m0, true)).
  { intros m L Hid Hd He ->.
    destruct (framed_decode
                (Z.of_nat (List.length (byte_of_Z k :: payload)) mod 2 ^ 32)
                (byte_of_Z k) payload r m Hid Hd) as [D1 D2].
    exists m. split; [exact D2|]. split; [exact He|exact D1]. }
  split_kind k; cbn [exactPayload] in H; try discriminate H.
  - (* Choke *)
    destruct payload; [|discriminate H].
    apply (F (MsgDataChoke (mkCommon 0) true) 1); try reflexivity.
    vm_compute; discriminate.
  - (* Piece *)
    destruct payload
      as [|a0 [|a1 [|a2 [|a3 [|b0 [|b1 [|b2 [|b3 [|x blk]]]]]]]]];
      try discriminate H.
    apply (F (MsgDataPiece (mkCommon 7)
                (getUint32FromBytes
                   (mkSlice [a0; a1; a2; a3]
                      (b0 :: b1 :: b2 :: b3 :: (x :: blk) ++ r)))
                (getUint32FromBytes
                   (mkSlice [b0; b1; b2; b3] ((x :: blk) ++ r)))
                (x :: blk))
             ((9 + Z.of_nat (List.length (x :: blk))) mod 2 ^ 32)).
    + vm_compute; discriminate.
    + apply decodeSwitch_Piece_bytes.
    + unfold EncodeMessage. cbv beta iota zeta.
      change (List.length (x :: blk) <=? 0)%nat with false. cbv iota.
      now rewrite !getBytes_getUint32.
    + f_equal. cbn [List.length]. lia.
  - (* Bitfield *)
    destruct payload as [|x bits]; [discriminate H|].
    apply (F (MsgDataBitfield (mkCommon 5) (x :: bits))
             ((1 + Z.of_nat (List.length (x :: bits))) mod 2 ^ 32)).
    + vm_compute; discriminate.
    + apply decodeSwitch_Bitfield.
    + reflexivity.
    + f_equal. cbn [List.length]. lia.
  - (* NotInterested *)
    destruct payload; [|discriminate H].
    apply (F (MsgDataInterested (mkCommon 3) false) 1); try reflexivity.
    vm_compute; discriminate.
  - (* Request *)
    destruct payload
      as [|a0 [|a1 [|a2 [|a3 [|b0 [|b1 [|b2 [|b3
         [|c0 [|c1 [|c2 [|c3 [|x t]]]]]]]]]]]]];
      try discriminate H.
    apply (F (MsgDataRequestCancel (mkCommon 6)
                (getUint32FromBytes
                   (mkSlice [a0; a1; a2; a3]
                      (b0 :: b1 :: b2 :: b3 :: c0 :: c1 :: c2 :: c3
                          :: [] ++ r)))
                (getUint32FromBytes
                   (mkSlice [b0; b1; b2; b3]
                      (c0 :: c1 :: c2 :: c3 :: [] ++ r)))
                (getUint32FromBytes (mkSlice [c0; c1; c2; c3] ([] ++ r))))
             13).
    + vm_compute; discriminate.
    + apply (decodeSwitch_RequestCancel_bytes 6). auto.
    + unfold EncodeMessage. cbv beta iota zeta.
      now rewrite !getBytes_getUint32.
    + reflexivity.
  - (* Cancel *)
    destruct payload
      as [|a0 [|a1 [|a2 [|a3 [|b0 [|b1 [|b2 [|b3
         [|c0 [|c1 [|c2 [|c3 [|x t]]]]]]]]]]]]];
      try discriminate H.
    apply (F (MsgDataRequestCancel (mkCommon 8)
                (getUint32FromBytes
                   (mkSlice [a0; a1; a2; a3]
                      (b0 :: b1 :: b2 :: b3 :: c0 :: c1 :: c2 :: c3
                          :: [] ++ r)))
                (getUint32FromBytes
                   (mkSlice [b0; b1; b2; b3]
                      (c0 :: c1 :: c2 :: c3 :: [] ++ r)))
                (getUint32FromBytes (mkSlice [c0; c1; c2; c3] ([] ++ r))))
             13).
    + vm_compute; discriminate.
    + apply (decodeSwitch_RequestCancel_bytes 8). auto.
    + unfold EncodeMessage. cbv beta iota zeta.
      now rewrite !getBytes_getUint32.
    + reflexivity.
  - (* Have *)
    destruct payload as [|a0 [|a1 [|a2 [|a3 [|x t]]]]];
      try discriminate H.
    apply (F (MsgDataHave (mkCommon 4)
                (getUint32FromBytes (mkSlice [a0; a1; a2; a3] ([] ++ r))))
             5).
    + vm_compute; discriminate.
    + apply decodeSwitch_Have_bytes.
    + unfold EncodeMessage. cbv beta iota zeta.
      now rewrite !getBytes_getUint32.
    + reflexivity.
  - (* Interested *)
    destruct payload; [|discriminate H].
    apply (F (MsgDataInterested (mkCommon 2) true) 1); try reflexivity.
    vm_compute; discriminate.
  - (* Unchoke *)
    destruct payload; [|discriminate H].
    apply (F (MsgDataChoke (mkCommon 1) false) 1); try reflexivity.
    vm_compute; discriminate.
Qed.

Lemma decode_then_encode_witness :
  exists m,
    Stripped.DecodeMessage (mkSlice (byte_of_Z 4 :: [x00; x00; x00; x2a]) [])
    = Ret (Some m, true)
    /\ EncodeMessage 4 (Some m)
       = (getBytesFromUint32
            (Z.of_nat (List.length (byte_of_Z 4 :: [x00; x00; x00; x2a]))
             mod 2 ^ 32)
            ++ byte_of_Z 4 :: [x00; x00; x00; x2a], true)
    /\ Prefixed.DecodeMessage
         (mkSlice (getBytesFromUint32
                     (Z.of_nat
                        (List.length (byte_of_Z 4 :: [x00; x00; x00; x2a]))
                      mod 2 ^ 32)
                     ++ byte_of_Z 4 :: [x00; x00; x00; x2a]) [])
       = Ret (Some m, true).
Proof.
  apply (decode_then_encode 4 [x00; x00; x00; x2a] []). reflexivity.
Defined.

(** X17: A handshake that is decoded and encoded again comes back with its
    protocol name, info hash and peer id in place, its reserved bytes
    zeroed and anything after the 68th byte dropped. *)
Theorem handshake_decode_then_encode (rsv ih pid extra r : list byte) :
  List.length rsv = 8%nat -> List.length ih = 20%nat ->
  List.length pid = 20%nat ->
  exists m,
    Prefixed.DecodeMessage
      (mkSlice (x13 :: headerBytes ++ rsv ++ ih ++ pid ++ extra) r)
    = Ret (Some m, true)
    /\ Stripped.DecodeMessage
         (mkSlice (x13 :: headerBytes ++ rsv ++ ih ++ pid ++ extra) r)
       = Ret (Some m, true)
    /\ EncodeMessage MsgTypeHandshake (Some m)
       = (x13 :: headerBytes ++ repeat x00 8 ++ ih ++ pid, true).
Proof.
  intros Hr Hi Hp.
  destruct (decode_handshake_pattern (rsv ++ ih ++ pid ++ extra) r)
    as [-> ->].
  rewrite (decodeSwitch_Handshake_fields rsv ih pid extra r Hr Hi Hp).
  eexists. split; [reflexivity|]. split; [reflexivity|].
  unfold EncodeMessage. cbv beta iota zeta.
  now rewrite !list_byte_of_string_of_list_byte.
Qed.

Lemma handshake_decode_then_encode_witness :
  exists m,
    Prefixed.DecodeMessage
      (mkSlice (x13 :: headerBytes ++ repeat x01 8 ++ repeat x02 20
                    ++ repeat x03 20 ++ [xff]) [])
    = Ret (Some m, true)
    /\ Stripped.DecodeMessage
         (mkSlice (x13 :: headerBytes ++ repeat x01 8 ++ repeat x02 20
                       ++ repeat x03 20 ++ [xff]) [])
       = Ret (Some m, true)
    /\ EncodeMessage MsgTypeHandshake (Some m)
       = (x13 :: headerBytes ++ repeat x00 8 ++ repeat x02 20
              ++ repeat x03 20, true).
Proof.
  apply (handshake_decode_then_encode (repeat x01 8) (repeat x02 20)
           (repeat x03 20) [xff] [] eq_refl eq_refl eq_refl).
Defined.

(** X20: The encoder does not check the sizes of the handshake strings: it
    succeeds on any info hash and peer id and writes 28 bytes plus their
    lengths. *)
Theorem encode_handshake_any_sizes
        (c : MsgDataCommon) (l : Z) (s rsv ih pid : string) :
  exists bs,
    EncodeMessage MsgTypeHandshake (Some (MsgDataHandshake c l s rsv ih pid))
    = (bs, true)
    /\ List.length bs = (28 + String.length ih + String.length pid)%nat.
Proof.
  eexists. split; [reflexivity|].
  cbn [app List.length]. rewrite !length_app, !length_list_byte_of_string.
  reflexivity.
Qed.

(** X14: Below the capacity a kind's field slices need, the decoders fault
    with a slice-bounds panic. *)
Theorem decode_faults_below_capacity (buf : slice) (b : byte) :
  uint_of_byte b <= MsgTypePort ->
  (nth_error (elems buf) 0 = Some b ->
   (cap buf < minCap (uint_of_byte b))%nat ->
   Stripped.DecodeMessage buf = Panic)
  /\ (nth_error (elems buf) 4 = Some b ->
      (cap buf < 4 + minCap (uint_of_byte b))%nat ->
      Prefixed.DecodeMessage buf = Panic).
Proof.
  intros Hb. split; intros Hn Hc.
  - now apply (Stripped_decode_short buf b).
  - now apply (Prefixed_decode_short buf b).
Qed.

Lemma decode_faults_below_capacity_witness :
  Stripped.DecodeMessage (sliceOf [x06; x00; x00; x00; x01]) = Panic.
Proof.
  apply (proj1 (decode_faults_below_capacity
                  (sliceOf [x06; x00; x00; x00; x01]) x06
                  ltac:(vm_compute; discriminate)));
    [reflexivity | vm_compute; lia].
Defined.
